(** * StatefulTeleBot: the per-sender state machine and the update dispatcher

    A shallow embedding of [Machine.getNextState], [Machine.SendEvent],
    [State.runHandler], [State.handle], [State.handleMedia] and
    [State.processUpdate], and the properties of the specification that
    are about them.

    Conventions of the embedding.
    - A Go pointer that the code tests against [nil] is an [option]; a
      pointer that the code dereferences without a test and that is set by
      the constructor of its struct ([State.Me], the receiver of a method)
      is the value itself.
    - A Go map is a [gmap]; a map that the code tests against [nil] is an
      [option (gmap _ _)].
    - [interface{}] is [iface]: [Nil], or a value tagged with its dynamic
      type, so that a type assertion is a comparison of tags.
    - Handler and action bodies are user code.  A call of [runHandler] is
      recorded in a trace, as the closure it is given and whether it runs
      inline or in a new goroutine; the closure is not executed.  What a
      body does to the machine or to the tables (an entry action may call
      [Set], also while [SendEvent] still runs when it is started inline)
      is therefore outside the embedding.
    - A panic ends the run: a run is the trace produced so far together
      with either the panic value or the returned value.
    - In the properties, a registered handler or entry action is a value
      of the function type that the code asserts for it; a value of
      another type makes the code panic ([handle_bad_handler],
      [SendEvent_bad_action]). *)

From Stdlib Require Import Ascii.
From stdpp Require Import base strings gmap list.

Set Warnings "-register-all".

(** ** Values of the host library that the dispatcher reads *)

(** Payloads whose contents the dispatcher never inspects. *)
Definition Opaque : Type := nat.

Record User : Type := mkUser {
  ID : Z;
  Username : string
}.

Record Chat : Type := mkChat {
  ChatID : Z
}.

(** The fields of [Message] that [state.go] reads or writes; the field
    [Chat] is [MsgChat]. *)
Inductive Message : Type := mkMessage {
  PinnedMessage : option Message;
  Text : string;
  Payload : string;
  Photo : option Opaque;
  Voice : option Opaque;
  Audio : option Opaque;
  Animation : option Opaque;
  Document : option Opaque;
  Sticker : option Opaque;
  Video : option Opaque;
  VideoNote : option Opaque;
  Contact : option Opaque;
  Location : option Opaque;
  Venue : option Opaque;
  Dice : option Opaque;
  Invoice : option Opaque;
  Payment : option Opaque;
  UserJoined : option User;
  UsersJoined : option (list User);
  GroupCreated : bool;
  SuperGroupCreated : bool;
  UserLeft : option User;
  NewGroupTitle : string;
  NewGroupPhoto : option Opaque;
  GroupPhotoDeleted : bool;
  MigrateTo : Z;
  MsgChat : option Chat;
  VoiceChatStarted : option Opaque;
  VoiceChatEnded : option Opaque;
  VoiceChatParticipantsInvited : option Opaque;
  ProximityAlert : option Opaque;
  AutoDeleteTimer : option Opaque;
  VoiceChatSchedule : option Opaque;
  InlineID : string
}.

(** The zero value [Message{}]. *)
Definition zeroMessage : Message :=
  mkMessage None "" "" None None None None None None None None None None None
            None None None None None false false None "" None false 0 None
            None None None None None None "".

(** [msh.Payload = p] *)
Definition setPayload (msh : Message) (p : string) : Message :=
  match msh with
  | mkMessage a1 a2 _ a4 a5 a6 a7 a8 a9 a10 a11 a12 a13 a14 a15 a16 a17 a18
              a19 a20 a21 a22 a23 a24 a25 a26 a27 a28 a29 a30 a31 a32 a33 a34 =>
    mkMessage a1 a2 p a4 a5 a6 a7 a8 a9 a10 a11 a12 a13 a14 a15 a16 a17 a18
              a19 a20 a21 a22 a23 a24 a25 a26 a27 a28 a29 a30 a31 a32 a33 a34
  end.

(** [mm.UserJoined = u] *)
Definition setUserJoined (mm : Message) (u : option User) : Message :=
  match mm with
  | mkMessage a1 a2 a3 a4 a5 a6 a7 a8 a9 a10 a11 a12 a13 a14 a15 a16 a17 _
              a19 a20 a21 a22 a23 a24 a25 a26 a27 a28 a29 a30 a31 a32 a33 a34 =>
    mkMessage a1 a2 a3 a4 a5 a6 a7 a8 a9 a10 a11 a12 a13 a14 a15 a16 a17 u
              a19 a20 a21 a22 a23 a24 a25 a26 a27 a28 a29 a30 a31 a32 a33 a34
  end.

(** [&Message{InlineID: id}] *)
Definition inlineMessage (id : string) : Message :=
  match zeroMessage with
  | mkMessage a1 a2 a3 a4 a5 a6 a7 a8 a9 a10 a11 a12 a13 a14 a15 a16 a17 a18
              a19 a20 a21 a22 a23 a24 a25 a26 a27 a28 a29 a30 a31 a32 a33 _ =>
    mkMessage a1 a2 a3 a4 a5 a6 a7 a8 a9 a10 a11 a12 a13 a14 a15 a16 a17 a18
              a19 a20 a21 a22 a23 a24 a25 a26 a27 a28 a29 a30 a31 a32 a33 id
  end.

(** The fields of [Callback] that [state.go] reads or writes. *)
Record Callback : Type := mkCallback {
  Data : string;
  MessageID : string;
  CbMessage : option Message
}.

(** The branches of [Update]; the field [Message] is [UpdMessage] and the
    field [Callback] is [UpdCallback], the other names are the source's. *)
Record Update : Type := mkUpdate {
  UpdMessage : option Message;
  EditedMessage : option Message;
  ChannelPost : option Message;
  EditedChannelPost : option Message;
  UpdCallback : option Callback;
  Query : option Opaque;
  ChosenInlineResult : option Opaque;
  ShippingQuery : option Opaque;
  PreCheckoutQuery : option Opaque;
  Poll : option Opaque;
  PollAnswer : option Opaque;
  MyChatMember : option Opaque;
  ChatMember : option Opaque
}.

(** ** Interface values and their dynamic types *)

(** The function types that the code asserts, and one tag for every other
    dynamic type. *)
Inductive GoType : Type :=
  | FuncMessageMachine             (* func(msg *Message, m *Machine) *)
  | FuncMachine                    (* func(m *Machine) *)
  | FuncInt64Int64                 (* func(int64, int64) *)
  | FuncMessage                    (* func(msg *Message) *)
  | FuncCallbackMachine            (* func(c *Callback, m *Machine) *)
  | FuncQueryMachine               (* func(q *Query, m *Machine) *)
  | FuncChosenInlineResultMachine  (* func(r *ChosenInlineResult, m *Machine) *)
  | FuncShippingQueryMachine       (* func(q *ShippingQuery, m *Machine) *)
  | FuncPreCheckoutQueryMachine    (* func(q *PreCheckoutQuery, m *Machine) *)
  | FuncPoll                       (* func(p *Poll) *)
  | FuncPollAnswerMachine          (* func(a *PollAnswer, m *Machine) *)
  | FuncChatMemberUpdatedMachine   (* func(u *ChatMemberUpdated, m *Machine) *)
  | OtherType.

#[global] Instance GoType_eq_dec : EqDecision GoType.
Proof. solve_decision. Defined.

(** [interface{}]: [Nil], or the value [val] of dynamic type [ty]. *)
Inductive iface : Type :=
  | Nil
  | Dyn (ty : GoType) (val : nat).

(** [v.(T)] in its two-result form: the value when the dynamic type of [v]
    is [T], and [None] for [ok = false]. *)
Definition typeAssert (T : GoType) (v : iface) : option nat :=
  match v with
  | Nil => None
  | Dyn ty val => if decide (ty = T) then Some val else None
  end.

(** ** States and machines *)

(** [StateType] and [EventType] are string types. *)
Abbreviation StateType := string (only parsing).
Abbreviation EventType := string (only parsing).

Definition Default : StateType := "Default".

(** [State]; the field [Type] is [Type_].  The fields [verbose] and
    [reporter] are read only by [deferDebug] and are left out. *)
Record State : Type := mkState {
  Me : User;
  Type_ : StateType;
  handlers : gmap string iface;
  Events : option (gmap EventType StateType);
  action : iface;
  synchronous : bool
}.

Record Machine : Type := mkMachine {
  current : StateType;
  who : option User;
  ctx : iface;
  states : gmap StateType State;
  globalEvents : option (gmap EventType StateType)
}.

(** [m.current = next] *)
Definition setCurrent (m : Machine) (next : StateType) : Machine :=
  mkMachine next (who m) (ctx m) (states m) (globalEvents m).

Inductive error : Type :=
  | ErrEventRejected.

(** ** Runs: traces, panics and results *)

(** The closure given to [runHandler], as the function value and the
    variables it captures. *)
Inductive closure : Type :=
  | CallMachine (action : nat) (m : Machine)
      (* func() { action(m) } *)
  | CallMessageMachine (handler : nat) (msg : Message) (m : option Machine)
      (* func() { handler(msg, m) } *)
  | CallMigration (handler : nat) (msh : Message)
      (* func() { handler(msh.Chat.ID, msh.MigrateTo) } *)
  | CallMessage (handler : nat) (msh : Message)
      (* func() { handler(msh) } *)
  | CallCallbackMachine (handler : nat) (c : Callback) (m : option Machine)
      (* func() { handler(upd.Callback, m) } *)
  | CallPayloadMachine (handler : nat) (p : Opaque) (m : option Machine)
      (* func() { handler(upd.Query, m) } and the like *)
  | CallPayload (handler : nat) (p : Opaque).
      (* func() { handler(upd.Poll) } *)

Inductive effect : Type :=
  | Lock                      (* m.mutex.Lock() *)
  | Unlock                    (* the deferred m.mutex.Unlock() *)
  | Println (s : string)      (* log.Println(nextState) *)
  | Inline (f : closure)      (* f() *)
  | Spawn (f : closure).      (* go f() *)

Inductive panic : Type :=
  | NilDereference            (* the runtime panic on a nil pointer *)
  | PanicValue (v : string).  (* panic(v) *)

(** A run that yields an [A]: its trace, and the panic or the value. *)
Definition Exec (A : Type) : Type := list effect * (panic + A).

Definition ret {A : Type} (a : A) : Exec A := ([], inr a).

Definition raise {A : Type} (p : panic) : Exec A := ([], inl p).

Definition emit (e : effect) : Exec unit := ([e], inr tt).

Definition bind {A B : Type} (x : Exec A) (k : A → Exec B) : Exec B :=
  match x with
  | (t, inl p) => (t, inl p)
  | (t, inr a) => let '(t', r) := k a in (t ++ t', r)
  end.

Notation "x <- e ;; k" := (bind e (λ x, k))
  (at level 100, e at next level, k at level 200, right associativity).
Notation "e ;;; k" := (bind e (λ _, k))
  (at level 100, k at level 200, right associativity).

(** ** [State.runHandler] *)

Definition runHandler (s : State) (handler : closure) : Exec unit :=
  if synchronous s then emit (Inline handler) else emit (Spawn handler).

(** What [runHandler s handler] adds to the trace. *)
Definition started (s : State) (handler : closure) : effect :=
  if synchronous s then Inline handler else Spawn handler.

(** ** The machine *)

Definition getNextState (m : Machine) (event : EventType)
  : StateType * option error :=
  let local :=
    match states m !! current m with
    | Some state =>
      match Events state with
      | Some tbl => tbl !! event
      | None => None
      end
    | None => None
    end in
  match local with
  | Some next => (next, None)
  | None =>
    let global :=
      match globalEvents m with
      | Some tbl => tbl !! event
      | None => None
      end in
    match global with
    | Some next => (next, None)
    | None => (Default, Some ErrEventRejected)
    end
  end.

(** [defer e; x]: the effect [e] after the run [x], whether [x] returns
    or panics. *)
Definition defer {A : Type} (e : effect) (x : Exec A) : Exec A :=
  let '(t, r) := x in (t ++ [e], r).

(** [SendEvent] writes [m.current] and may panic after it has done so:
    the result is the machine as the statements of [SendEvent] leave it,
    and the run.  An entry action that the run starts is in the trace;
    what its body then does to the machine is not in the first
    component. *)
Definition SendEvent (m : Machine) (event : EventType)
  : Machine * Exec (option error) :=
  let '(m', body) :=
    match getNextState m event with
    | (_, Some _) => (m, ret (Some ErrEventRejected))
    | (nextState, None) =>
      (* state, ok := m.states[nextState]: the nil pointer without an
         entry; the if statement that follows has an empty body *)
      let state := states m !! nextState in
      let m' := setCurrent m nextState in
      (m',
       emit (Println nextState);;;
       match state with
       | None => raise NilDereference   (* state.action != nil *)
       | Some state =>
         match action state with
         | Nil => ret None
         | Dyn _ _ =>
           match typeAssert FuncMachine (action state) with
           | None => raise (PanicValue "stb: action is bad")
           | Some action =>
             runHandler state (CallMachine action m');;;
             ret None
           end
         end
       end)
    end in
  (m', emit Lock;;; defer Unlock body).

Definition Current (m : Machine) : StateType := current m.

(** ** The other methods of [Machine]

    [User], [Get] and [Set] carry the prefix [Machine_]: [User] is the
    record of the host library and [Set] a sort. *)

Definition Machine_User (m : Machine) : option User := who m.

Definition Machine_Get (m : Machine) : iface := ctx m.

(** [m.ctx = ctx] *)
Definition Machine_Set (m : Machine) (ctx : iface) : Machine :=
  mkMachine (current m) (who m) ctx (states m) (globalEvents m).

(** ** The registration methods of [State] *)

(** [mp[k] = v]: the assignment panics on the nil map, with the runtime
    error of this message. *)
Definition assign {V : Type} (mp : option (gmap string V)) (k : string)
    (v : V) : panic + gmap string V :=
  match mp with
  | Some entries => inr (<[k := v]> entries)
  | None => inl (PanicValue "assignment to entry in nil map")
  end.

(** The dynamic types of the value given as [endpoint]: a [string], a
    [CallbackEndpoint], given as what its method [CallbackUnique] returns,
    or anything else. *)
Inductive endpoint : Type :=
  | EndString (end_ : string)
  | EndCallback (unique : string)
  | EndOther.

(** [Handle] writes the map of handlers, which [State] has as a made map:
    the nil map of handlers, on which the assignment would panic, is
    not among the values of the record. *)
Definition Handle (s : State) (endpoint : endpoint) (handler : iface)
  : panic + State :=
  let store (key : string) :=
    match assign (Some (handlers s)) key handler with
    | inr entries =>
      inr (mkState (Me s) (Type_ s) entries (Events s) (action s)
             (synchronous s))
    | inl p => inl p
    end in
  match endpoint with
  | EndString end_ => store end_
  | EndCallback unique => store unique
  | EndOther => inl (PanicValue "stb: unsupported endpoint")
  end.

(** [s.action = handler] *)
Definition Action (s : State) (handler : iface) : State :=
  mkState (Me s) (Type_ s) (handlers s) (Events s) handler (synchronous s).

(** [s.Events[e] = t] *)
Definition Event (s : State) (e : EventType) (t : StateType)
  : panic + State :=
  match assign (Events s) e t with
  | inr entries =>
    inr (mkState (Me s) (Type_ s) (handlers s) (Some entries) (action s)
           (synchronous s))
  | inl p => inl p
  end.

(** ** What the package declares outside the embedded files

    The endpoint constants, the two compiled patterns and
    [strings.EqualFold] are used by [processUpdate] and declared
    elsewhere; the dispatcher is embedded over any choice of them.
    - [cmdRx text] is [None] when [cmdRx.FindAllStringSubmatch(text, -1)]
      is [nil], and otherwise the groups 1, 3 and 5 of the first match:
      the command, the bot name and the payload.
    - [cbackRx data] is likewise the groups 1 and 3 of the first match:
      the unique identifier and the payload. *)
Class Telebot : Type := {
  OnPinned : string;
  OnCommand : string;
  OnText : string;
  OnPhoto : string;
  OnVoice : string;
  OnAudio : string;
  OnAnimation : string;
  OnDocument : string;
  OnSticker : string;
  OnVideo : string;
  OnVideoNote : string;
  OnContact : string;
  OnLocation : string;
  OnVenue : string;
  OnDice : string;
  OnInvoice : string;
  OnPayment : string;
  OnAddedToGroup : string;
  OnUserJoined : string;
  OnUserLeft : string;
  OnNewGroupTitle : string;
  OnNewGroupPhoto : string;
  OnGroupPhotoDeleted : string;
  OnMigration : string;
  OnVoiceChatStarted : string;
  OnVoiceChatEnded : string;
  OnVoiceChatParticipantsInvited : string;
  OnProximityAlert : string;
  OnAutoDeleteTimer : string;
  OnVoiceChatScheduled : string;
  OnEdited : string;
  OnChannelPost : string;
  OnEditedChannelPost : string;
  OnCallback : string;
  OnQuery : string;
  OnChosenInlineResult : string;
  OnShipping : string;
  OnCheckout : string;
  OnPoll : string;
  OnPollAnswer : string;
  OnMyChatMember : string;
  OnChatMember : string;
  cmdRx : string → option (string * string * string);
  cbackRx : string → option (string * string);
  EqualFold : string → string → bool
}.

(** Modelled from the spec: [isUserInList] is called by [processUpdate]
    and defined outside the embedded files; the specification describes
    its result as the bot's own id being present in the joined-users
    list. *)
Definition isUserInList (user : User) (list : list User) : bool :=
  existsb (λ user2, bool_decide (ID user = ID user2)) list.

(** The bytes that the dispatcher compares with the first byte of a
    string: ['\a'], ['\f'] and ['/']. *)
Definition bell : ascii := "007"%char.
Definition formFeed : ascii := "012"%char.
Definition slash : ascii := "/"%char.

(** [c.Message = msg] and [c.Data = d] *)
Definition setCbMessage (c : Callback) (msg : option Message) : Callback :=
  mkCallback (Data c) (MessageID c) msg.

Definition setData (c : Callback) (d : string) : Callback :=
  mkCallback d (MessageID c) (CbMessage c).

(** The callback after [if upd.Callback.MessageID != ""] inside
    [if upd.Callback.Data != ""]: its message is the inline one when both
    strings are not empty. *)
Definition withInlineMessage (c : Callback) : Callback :=
  match Data c, MessageID c with
  | String _ _, String _ _ =>
    setCbMessage c (Some (inlineMessage (MessageID c)))
  | _, _ => c
  end.

(** A message without any of the media fields that [handleMedia] tests. *)
Definition noMedia (msg : Message) : Prop :=
  Photo msg = None ∧ Voice msg = None ∧ Audio msg = None
  ∧ Animation msg = None ∧ Document msg = None ∧ Sticker msg = None
  ∧ Video msg = None ∧ VideoNote msg = None ∧ Contact msg = None
  ∧ Location msg = None ∧ Venue msg = None ∧ Dice msg = None.

Section Dispatcher.
Context {T : Telebot}.

(** ** [State.handle] *)

Definition handle (s : State) (end_ : string) (msg : Message)
    (m : option Machine) : Exec bool :=
  match handlers s !! end_ with
  | Some handler =>
    match typeAssert FuncMessageMachine handler with
    | None => raise (PanicValue ("stb: " +:+ end_ +:+ " handler is bad"))
    | Some handler =>
      runHandler s (CallMessageMachine handler msg m);;;
      ret true
    end
  | None => ret false
  end.

(** ** [State.handleMedia]

    Every case of the switch calls [handle] and drops its result; the
    function returns [true] after the switch and [false] only from the
    default case. *)
Definition handleMedia (s : State) (msg : Message) (m : option Machine)
  : Exec bool :=
  match Photo msg, Voice msg, Audio msg, Animation msg, Document msg,
        Sticker msg, Video msg, VideoNote msg, Contact msg, Location msg,
        Venue msg, Dice msg with
  | Some _, _, _, _, _, _, _, _, _, _, _, _ =>
    handle s OnPhoto msg m;;; ret true
  | None, Some _, _, _, _, _, _, _, _, _, _, _ =>
    handle s OnVoice msg m;;; ret true
  | None, None, Some _, _, _, _, _, _, _, _, _, _ =>
    handle s OnAudio msg m;;; ret true
  | None, None, None, Some _, _, _, _, _, _, _, _, _ =>
    handle s OnAnimation msg m;;; ret true
  | None, None, None, None, Some _, _, _, _, _, _, _, _ =>
    handle s OnDocument msg m;;; ret true
  | None, None, None, None, None, Some _, _, _, _, _, _, _ =>
    handle s OnSticker msg m;;; ret true
  | None, None, None, None, None, None, Some _, _, _, _, _, _ =>
    handle s OnVideo msg m;;; ret true
  | None, None, None, None, None, None, None, Some _, _, _, _, _ =>
    handle s OnVideoNote msg m;;; ret true
  | None, None, None, None, None, None, None, None, Some _, _, _, _ =>
    handle s OnContact msg m;;; ret true
  | None, None, None, None, None, None, None, None, None, Some _, _, _ =>
    handle s OnLocation msg m;;; ret true
  | None, None, None, None, None, None, None, None, None, None, Some _, _ =>
    handle s OnVenue msg m;;; ret true
  | None, None, None, None, None, None, None, None, None, None, None, Some _ =>
    handle s OnDice msg m;;; ret true
  | None, None, None, None, None, None, None, None, None, None, None, None =>
    ret false
  end.

(** ** [State.processUpdate] *)

(** The block that [processUpdate] repeats for the categories with one
    handler slot: look the key up, assert the handler's type or panic with
    [bad], run the closure and return [true]; [false] without a handler. *)
Definition lookupRun (s : State) (key : string) (ty : GoType) (bad : string)
    (f : nat → closure) : Exec bool :=
  match handlers s !! key with
  | Some handler =>
    match typeAssert ty handler with
    | None => raise (PanicValue bad)
    | Some handler => runHandler s (f handler);;; ret true
    end
  | None => ret false
  end.

(** The loop over [msh.UsersJoined]: [rest] is the part of the slice still
    to visit and [b] the variable of the same name. *)
Fixpoint usersJoinedLoop (s : State) (msh : Message) (m : option Machine)
    (rest : list User) (b : bool) : Exec bool :=
  match rest with
  | [] => ret b
  | user :: rest =>
    (* mm := *msh; mm.UserJoined = &msh.UsersJoined[index] *)
    let mm := setUserJoined msh (Some user) in
    h <- handle s OnUserJoined mm m;;
    usersJoinedLoop s msh m rest (if h then true else b)
  end.

(** The 1:1 match and the two generic text categories, for a text whose
    first byte is [c]. *)
Definition textEndpoints (s : State) (c : ascii) (msh : Message)
    (m : option Machine) : Exec bool :=
  h <- handle s (Text msh) msh m;;
  if h then ret true
  else if decide (c = slash) then handle s OnCommand msh m
  else handle s OnText msh m.

(** The body of [if msh.Text != ""], for a text whose first byte is [c]. *)
Definition processText (s : State) (c : ascii) (msh : Message)
    (m : option Machine) : Exec bool :=
  if decide (c = bell) then ret false
  else
    match cmdRx (Text msh) with
    | Some (command, botName, payload) =>
      if negb (String.eqb botName "")
         && negb (EqualFold (Username (Me s)) botName)
      then ret false
      else
        let msh := setPayload msh payload in
        h <- handle s command msh m;;
        if h then ret true else textEndpoints s c msh m
    | None => textEndpoints s c msh m
    end.

(** The body of [if upd.Message != nil], after the text branch: [Some b]
    when a branch returns [b], [None] when control leaves the block. *)
Definition processService (s : State) (msh : Message) (m : option Machine)
  : Exec (option bool) :=
  media <- handleMedia s msh m;;
  if media then ret (Some true) else
  match Invoice msh with
  | Some _ => b <- handle s OnInvoice msh m;; ret (Some b)
  | None =>
  match Payment msh with
  | Some _ => b <- handle s OnPayment msh m;; ret (Some b)
  | None =>
  let wasAdded :=
    match UserJoined msh with
    | Some u => bool_decide (ID u = ID (Me s))
    | None => false
    end
    || match UsersJoined msh with
       | Some l => isUserInList (Me s) l
       | None => false
       end in
  if GroupCreated msh || SuperGroupCreated msh || wasAdded
  then b <- handle s OnAddedToGroup msh m;; ret (Some b) else
  match UsersJoined msh with
  | Some l => b <- usersJoinedLoop s msh m l false;; ret (Some b)
  | None =>
  match UserJoined msh with
  | Some _ => b <- handle s OnUserJoined msh m;; ret (Some b)
  | None =>
  match UserLeft msh with
  | Some _ => b <- handle s OnUserLeft msh m;; ret (Some b)
  | None =>
  match NewGroupTitle msh with
  | String _ _ => b <- handle s OnNewGroupTitle msh m;; ret (Some b)
  | EmptyString =>
  match NewGroupPhoto msh with
  | Some _ => b <- handle s OnNewGroupPhoto msh m;; ret (Some b)
  | None =>
  if GroupPhotoDeleted msh
  then b <- handle s OnGroupPhotoDeleted msh m;; ret (Some b) else
  if negb (bool_decide (MigrateTo msh = 0%Z)) then
    b <- lookupRun s OnMigration FuncInt64Int64 "stb: migration handler is bad"
           (λ h, CallMigration h msh);;
    ret (Some b) else
  match VoiceChatStarted msh with
  | Some _ =>
    b <- lookupRun s OnVoiceChatStarted FuncMessage
           "stb: voice chat started handler is bad" (λ h, CallMessage h msh);;
    ret (Some b)
  | None =>
  match VoiceChatEnded msh with
  | Some _ =>
    b <- lookupRun s OnVoiceChatEnded FuncMessage
           "stb: voice chat ended handler is bad" (λ h, CallMessage h msh);;
    ret (Some b)
  | None =>
  match VoiceChatParticipantsInvited msh with
  | Some _ =>
    b <- lookupRun s OnVoiceChatParticipantsInvited FuncMessage
           "stb: voice chat participants invited handler is bad"
           (λ h, CallMessage h msh);;
    ret (Some b)
  | None =>
  match ProximityAlert msh with
  | Some _ =>
    b <- lookupRun s OnProximityAlert FuncMessage
           "stb: proximity alert handler is bad" (λ h, CallMessage h msh);;
    ret (Some b)
  | None =>
  match AutoDeleteTimer msh with
  | Some _ =>
    b <- lookupRun s OnAutoDeleteTimer FuncMessage
           "stb: auto delete timer handler is bad" (λ h, CallMessage h msh);;
    ret (Some b)
  | None =>
  match VoiceChatSchedule msh with
  | Some _ =>
    b <- lookupRun s OnVoiceChatScheduled FuncMessage
           "stb: voice chat scheduled is bad" (λ h, CallMessage h msh);;
    ret (Some b)
  | None => ret None
  end end end end end end end end end end end end end.

(** The body of [if upd.Message != nil]. *)
Definition processMessage (s : State) (msh : Message) (m : option Machine)
  : Exec (option bool) :=
  match PinnedMessage msh with
  | Some _ => b <- handle s OnPinned msh m;; ret (Some b)
  | None =>
    match Text msh with
    | String c _ => b <- processText s c msh m;; ret (Some b)
    | EmptyString => processService s msh m
    end
  end.

(** The body of [if upd.Callback != nil], for the callback [c]. *)
Definition processCallback (s : State) (c : Callback) (m : option Machine)
  : Exec bool :=
  let c' := withInlineMessage c in
  let generic :=
    lookupRun s OnCallback FuncCallbackMachine "stb: callback handler is bad"
      (λ h, CallCallbackMachine h c' m) in
  match Data c with
  | String d0 _ =>
    if decide (d0 = formFeed) then
      match cbackRx (Data c) with
      | Some (unique, payload) =>
        match handlers s !! String formFeed unique with
        | Some handler =>
          match typeAssert FuncCallbackMachine handler with
          | None =>
            raise (PanicValue
                     ("stb: " +:+ unique +:+ " callback handler is bad"))
          | Some handler =>
            (* upd.Callback.Data = payload *)
            runHandler s (CallCallbackMachine handler (setData c' payload) m);;;
            ret true
          end
        | None => generic
        end
      | None => generic
      end
    else generic
  | EmptyString => generic
  end.

(** The part of [processUpdate] after the block of [upd.Message]. *)
Definition processOther (s : State) (upd : Update) (m : option Machine)
  : Exec bool :=
  match EditedMessage upd with Some msg => handle s OnEdited msg m | None =>
  match ChannelPost upd with
  | Some msg =>
    match PinnedMessage msg with
    | Some _ => handle s OnPinned msg m
    | None => handle s OnChannelPost msg m
    end
  | None =>
  match EditedChannelPost upd with
  | Some msg => handle s OnEditedChannelPost msg m
  | None =>
  match UpdCallback upd with Some c => processCallback s c m | None =>
  match Query upd with
  | Some q =>
    lookupRun s OnQuery FuncQueryMachine "stb: query handler is bad"
      (λ h, CallPayloadMachine h q m)
  | None =>
  match ChosenInlineResult upd with
  | Some r =>
    lookupRun s OnChosenInlineResult FuncChosenInlineResultMachine
      "stb: chosen inline result handler is bad" (λ h, CallPayloadMachine h r m)
  | None =>
  match ShippingQuery upd with
  | Some q =>
    lookupRun s OnShipping FuncShippingQueryMachine
      "stb: shipping query handler is bad" (λ h, CallPayloadMachine h q m)
  | None =>
  match PreCheckoutQuery upd with
  | Some q =>
    lookupRun s OnCheckout FuncPreCheckoutQueryMachine
      "stb: pre checkout query handler is bad" (λ h, CallPayloadMachine h q m)
  | None =>
  match Poll upd with
  | Some p =>
    lookupRun s OnPoll FuncPoll "stb: poll handler is bad" (λ h, CallPayload h p)
  | None =>
  match PollAnswer upd with
  | Some a =>
    lookupRun s OnPollAnswer FuncPollAnswerMachine
      "stb: poll answer handler is bad" (λ h, CallPayloadMachine h a m)
  | None =>
  match MyChatMember upd with
  | Some u =>
    lookupRun s OnMyChatMember FuncChatMemberUpdatedMachine
      "stb: my chat member handler is bad" (λ h, CallPayloadMachine h u m)
  | None =>
  match ChatMember upd with
  | Some u =>
    lookupRun s OnChatMember FuncChatMemberUpdatedMachine
      "stb: chat member handler is bad" (λ h, CallPayloadMachine h u m)
  | None => ret false
  end end end end end end end end end end end end.

Definition processUpdate (s : State) (upd : Update) (m : option Machine)
  : Exec bool :=
  match UpdMessage upd with
  | Some msh =>
    r <- processMessage s msh m;;
    match r with
    | Some b => ret b
    | None => processOther s upd m
    end
  | None => processOther s upd m
  end.

End Dispatcher.

(** ** The result of a dispatch and the trace

    A run of the dispatcher that returns [b] tells the truth when [b] is
    [true] exactly if the trace is not empty, that is, if some handler
    was started. *)
Definition reportsStart (x : Exec bool) : Prop :=
  ∀ t b, x = (t, inr b) → (b = true ↔ t ≠ []).

(** The same for a block that may be left without a result: then nothing
    was started. *)
Definition reportsStartOrLeaves (x : Exec (option bool)) : Prop :=
  ∀ t r, x = (t, inr r) →
    match r with
    | Some b => b = true ↔ t ≠ []
    | None => t = []
    end.

(** The results that promise that nothing was started: [false], and for
    a block that may be left, every result but [Some true]. *)
Definition quietOrLeft (r : option bool) : bool :=
  match r with
  | Some true => false
  | _ => true
  end.

(** A run of the state [s] is tidy within [n] when every effect of its
    trace is a handler started the way [s] starts handlers, there are at
    most [n] of them, and there is none when the run panics or returns a
    value that is [quiet]. *)
Definition tidy {A : Type} (s : State) (n : nat) (quiet : A → bool)
    (x : Exec A) : Prop :=
  Forall (λ e, ∃ f, e = started s f) (fst x)
  ∧ length (fst x) ≤ n
  ∧ match snd x with
    | inl _ => fst x = []
    | inr a => quiet a = true → fst x = []
    end.

(** The number of handlers that one update can start: one, or one per
    joined user. *)
Definition fanOut (upd : Update) : nat :=
  match UpdMessage upd with
  | Some msh =>
    match UsersJoined msh with
    | Some users => max 1 (length users)
    | None => 1
    end
  | None => 1
  end.

(** ** Concrete parameters and inputs for the examples *)

Module Examples.

(** [\w] of the patterns: an ASCII letter, a digit or the underscore. *)
Definition isWord (c : ascii) : bool :=
  let n := nat_of_ascii c in
  (48 <=? n) && (n <=? 57) || (65 <=? n) && (n <=? 90)
  || (97 <=? n) && (n <=? 122) || (n =? 95).

(** [\s] of the patterns. *)
Definition isSpace (c : ascii) : bool :=
  let n := nat_of_ascii c in
  (n =? 9) || (n =? 10) || (n =? 12) || (n =? 13) || (n =? 32).

Definition isNewline (c : ascii) : bool := nat_of_ascii c =? 10.

(** The longest prefix of [s] whose bytes satisfy [p], and the rest. *)
Fixpoint span (p : ascii → bool) (s : string) : string * string :=
  match s with
  | String c s' =>
    if p c then let '(a, b) := span p s' in (String c a, b)
    else (EmptyString, s)
  | EmptyString => (EmptyString, EmptyString)
  end.

(** Modelled from the spec: the command pattern is declared outside the
    embedded files; the specification gives the syntax as
    [/name@botname payload], the bot name being optional. *)
Definition commandSyntax (text : string) : option (string * string * string) :=
  match text with
  | String c rest =>
    if decide (c = slash) then
      let '(name, r1) := span isWord rest in
      match name with
      | EmptyString => None
      | String _ _ =>
        let '(bot, r2) :=
          match r1 with
          | String "@"%char r =>
            match span isWord r with
            | (EmptyString, _) => (EmptyString, r1)
            | (b, r') => (b, r')
            end
          | _ => (EmptyString, r1)
          end in
        match r2 with
        | EmptyString => Some (String slash name, bot, EmptyString)
        | String sp r3 =>
          if isSpace sp
          then Some (String slash name, bot, fst (span (λ c, negb (isNewline c)) r3))
          else None
        end
      end
    else None
  | EmptyString => None
  end.

(** Modelled from the spec: the callback pattern is declared outside the
    embedded files; the specification gives it as the escape prefix, an
    identifier and, after a separator, the trailing payload, as in
    ["\fyesBtn|ok"]. *)
Definition callbackSyntax (data : string) : option (string * string) :=
  match data with
  | String c rest =>
    if decide (c = formFeed) then
      let '(unique, r) := span (λ c, isWord c || bool_decide (c = "-"%char)) rest in
      match unique, r with
      | EmptyString, _ => None
      | _, EmptyString => Some (unique, EmptyString)
      | _, String "|"%char payload =>
        match payload, span (λ c, negb (isNewline c)) payload with
        | String _ _, (_, EmptyString) => Some (unique, payload)
        | _, _ => None
        end
      | _, _ => None
      end
    else None
  | EmptyString => None
  end.

Definition lower (c : ascii) : ascii :=
  let n := nat_of_ascii c in
  if (65 <=? n) && (n <=? 90) then ascii_of_nat (n + 32) else c.

Fixpoint lowerString (s : string) : string :=
  match s with
  | String c s' => String (lower c) (lowerString s')
  | EmptyString => EmptyString
  end.

(** [strings.EqualFold] for strings of ASCII bytes only, on which the
    simple folding of Unicode is the folding of the letters [A-Z]; the
    examples use no other strings. *)
Definition asciiEqualFold (a b : string) : bool :=
  String.eqb (lowerString a) (lowerString b).

(** A choice of the parameters: endpoint constants that start with the
    reserved byte ['\a'], and the matchers above. *)
Definition telebot : Telebot := {|
  OnPinned := String bell "pinned";
  OnCommand := String bell "command";
  OnText := String bell "text";
  OnPhoto := String bell "photo";
  OnVoice := String bell "voice";
  OnAudio := String bell "audio";
  OnAnimation := String bell "animation";
  OnDocument := String bell "document";
  OnSticker := String bell "sticker";
  OnVideo := String bell "video";
  OnVideoNote := String bell "video_note";
  OnContact := String bell "contact";
  OnLocation := String bell "location";
  OnVenue := String bell "venue";
  OnDice := String bell "dice";
  OnInvoice := String bell "invoice";
  OnPayment := String bell "payment";
  OnAddedToGroup := String bell "added_to_group";
  OnUserJoined := String bell "user_joined";
  OnUserLeft := String bell "user_left";
  OnNewGroupTitle := String bell "new_chat_title";
  OnNewGroupPhoto := String bell "new_chat_photo";
  OnGroupPhotoDeleted := String bell "chat_photo_deleted";
  OnMigration := String bell "migration";
  OnVoiceChatStarted := String bell "voice_chat_started";
  OnVoiceChatEnded := String bell "voice_chat_ended";
  OnVoiceChatParticipantsInvited := String bell "voice_chat_participants_invited";
  OnProximityAlert := String bell "proximity_alert_triggered";
  OnAutoDeleteTimer := String bell "message_auto_delete_timer_changed";
  OnVoiceChatScheduled := String bell "voice_chat_scheduled";
  OnEdited := String bell "edited";
  OnChannelPost := String bell "channel_post";
  OnEditedChannelPost := String bell "edited_channel_post";
  OnCallback := String bell "callback";
  OnQuery := String bell "query";
  OnChosenInlineResult := String bell "chosen_inline_result";
  OnShipping := String bell "shipping_query";
  OnCheckout := String bell "pre_checkout_query";
  OnPoll := String bell "poll";
  OnPollAnswer := String bell "poll_answer";
  OnMyChatMember := String bell "my_chat_member";
  OnChatMember := String bell "chat_member";
  cmdRx := commandSyntax;
  cbackRx := callbackSyntax;
  EqualFold := asciiEqualFold
|}.

Definition bot1 : User := mkUser 1 "bot1".
Definition bot2 : User := mkUser 2 "bot2".

(** A state of the bot [me] with the given tables and entry action. *)
Definition stateOf (me : User) (type : StateType)
    (hs : list (string * iface)) (evs : list (EventType * StateType))
    (act : iface) : State :=
  mkState me type (list_to_map hs) (Some (list_to_map evs)) act false.

(** The two-state configuration of the README: [Inactive] goes to
    [Active] on [Activate], and [Active] back on [Deactivate].  The
    global table sends [Cancel] and also [Activate] to [Inactive]. *)
Definition inactive : State :=
  stateOf bot1 "Inactive" [] [("Activate", "Active")] (Dyn FuncMachine 10).

Definition active : State :=
  stateOf bot1 "Active" [] [("Deactivate", "Inactive")] (Dyn FuncMachine 11).

Definition machine : Machine :=
  mkMachine "Inactive" None Nil
            (list_to_map [("Inactive", inactive); ("Active", active)])
            (Some (list_to_map [("Cancel", "Inactive"); ("Activate", "Inactive")])).

(** The same configuration where [Active] was never registered. *)
Definition machineNoTarget : Machine :=
  mkMachine "Inactive" None Nil (list_to_map [("Inactive", inactive)]) None.

(** A machine whose current state was never registered. *)
Definition machineNoCurrent : Machine :=
  mkMachine "Lost" None Nil
            (list_to_map [("Inactive", inactive); ("Active", active)])
            (Some (list_to_map [("Cancel", "Inactive")])).

(** Messages and updates with one populated field. *)
Definition textMessage (text : string) : Message :=
  mkMessage None text "" None None None None None None None None None None
            None None None None None None false false None "" None false 0
            None None None None None None None "".

Definition photoMessage : Message :=
  mkMessage None "" "" (Some 1) None None None None None None None None None
            None None None None None None false false None "" None false 0
            None None None None None None None "".

Definition joinMessage (users : list User) : Message :=
  mkMessage None "" "" None None None None None None None None None None
            None None None None None (Some users) false false None "" None
            false 0 None None None None None None None "".

Definition messageUpdate (msh : Message) : Update :=
  mkUpdate (Some msh) None None None None None None None None None None None
           None.

Definition callbackUpdate (c : Callback) : Update :=
  mkUpdate None None None None (Some c) None None None None None None None
           None.

Definition alice : User := mkUser 101 "alice".
Definition bob : User := mkUser 102 "bob".
Definition carol : User := mkUser 103 "carol".

(** A state without handlers. *)
Definition silent : State := stateOf bot1 "Inactive" [] [] Nil.

(** A state of [bot2] with handlers for ["/start"], for the whole text
    ["/start@bot1 hello"] and for the two generic text categories. *)
Definition chatty : State :=
  stateOf bot2 "Inactive"
    [("/start", Dyn FuncMessageMachine 1);
     ("/start@bot1 hello", Dyn FuncMessageMachine 2);
     (OnCommand (Telebot := telebot), Dyn FuncMessageMachine 3);
     (OnText (Telebot := telebot), Dyn FuncMessageMachine 4)]
    [] Nil.

(** A state with a handler for the button [yesBtn] and the generic
    callback handler. *)
Definition confirming : State :=
  stateOf bot1 "SaveConfirmation"
    [(String formFeed "yesBtn", Dyn FuncCallbackMachine 7);
     (OnCallback (Telebot := telebot), Dyn FuncCallbackMachine 8)]
    [] Nil.

(** A state with only the generic callback handler. *)
Definition listening : State :=
  stateOf bot1 "Inactive"
    [(OnCallback (Telebot := telebot), Dyn FuncCallbackMachine 8)] [] Nil.

Definition yesOk : Callback := mkCallback (String formFeed "yesBtn|ok") "" None.

(** A state with a handler for joined users. *)
Definition greeting : State :=
  stateOf bot1 "Inactive"
    [(OnUserJoined (Telebot := telebot), Dyn FuncMessageMachine 5)] [] Nil.

(** The configuration of [machine] with an entry action of [Active] that
    is not a [func(m *Machine)]. *)
Definition activeBadAction : State :=
  stateOf bot1 "Active" [] [("Deactivate", "Inactive")] (Dyn FuncMessage 11).

Definition machineBadAction : Machine :=
  mkMachine "Inactive" None Nil
            (list_to_map [("Inactive", inactive); ("Active", activeBadAction)])
            None.

(** The configuration of [machine] with an [Active] without entry
    action. *)
Definition activeNoAction : State :=
  stateOf bot1 "Active" [] [("Deactivate", "Inactive")] Nil.

Definition machineNoAction : Machine :=
  mkMachine "Inactive" None Nil
            (list_to_map [("Inactive", inactive); ("Active", activeNoAction)])
            None.

(** A state whose handler for [OnText] takes a message only. *)
Definition broken : State :=
  stateOf bot1 "Inactive"
    [(OnText (Telebot := telebot), Dyn FuncMessage 9)] [] Nil.

(** A state with a handler for the text ["hello"] and one for any
    text. *)
Definition polite : State :=
  stateOf bot1 "Inactive"
    [("hello", Dyn FuncMessageMachine 6);
     (OnText (Telebot := telebot), Dyn FuncMessageMachine 4)]
    [] Nil.

(** A state with a handler for pinned messages and one for ["/start"]. *)
Definition pinning : State :=
  stateOf bot1 "Inactive"
    [(OnPinned (Telebot := telebot), Dyn FuncMessageMachine 12);
     ("/start", Dyn FuncMessageMachine 1)]
    [] Nil.

(** A state with a handler for the bot being added to a group and one
    for joined users. *)
Definition hosting : State :=
  stateOf bot1 "Inactive"
    [(OnAddedToGroup (Telebot := telebot), Dyn FuncMessageMachine 13);
     (OnUserJoined (Telebot := telebot), Dyn FuncMessageMachine 5)]
    [] Nil.

(** The text ["/start"] with a pinned message. *)
Definition pinnedStart : Message :=
  mkMessage (Some zeroMessage) "/start" "" None None None None None None
            None None None None None None None None None None false false
            None "" None false 0 None None None None None None None "".

Definition plain : Callback := mkCallback "plain" "" None.

(** The message [joinMessage users] with the joined user [u], and the
    message [textMessage text] with the payload [payload], field by
    field. *)
Definition joinedCopy (users : list User) (u : User) : Message :=
  mkMessage None "" "" None None None None None None None None None None
            None None None None (Some u) (Some users) false false None ""
            None false 0 None None None None None None None "".

Definition textWithPayload (text payload : string) : Message :=
  mkMessage None text payload None None None None None None None None None
            None None None None None None None false false None "" None
            false 0 None None None None None None None "".

End Examples.

(** * Properties of the machine *)

Section MachineProperties.

Implicit Types (m : Machine) (e : EventType) (t : StateType).

(** The event in the table of the current state, when the current state
    is registered and has a table. *)
Lemma getNextState_local m e st tbl t :
  states m !! current m = Some st → Events st = Some tbl →
  tbl !! e = Some t → getNextState m e = (t, None).
Proof. intros Hst Hev He. unfold getNextState. by rewrite Hst, Hev, He. Qed.

(** Without an entry for the event in the table of the current state,
    the result is the one of the global table. *)
Lemma getNextState_global m e :
  (∀ st tbl, states m !! current m = Some st → Events st = Some tbl →
             tbl !! e = None) →
  getNextState m e =
    match globalEvents m with
    | Some g =>
      match g !! e with
      | Some next => (next, None)
      | None => (Default, Some ErrEventRejected)
      end
    | None => (Default, Some ErrEventRejected)
    end.
Proof.
  intros Hlocal. unfold getNextState.
  assert (Hnone : match states m !! current m with
                  | Some state =>
                    match Events state with
                    | Some tbl => tbl !! e
                    | None => None
                    end
                  | None => None
                  end = None).
  { destruct (states m !! current m) as [st|]; [|done].
    destruct (Events st) as [tbl|] eqn:Etbl; [|done].
    by apply (Hlocal st tbl). }
  rewrite Hnone. by destruct (globalEvents m).
Qed.

(** [getNextState] returns an error only together with [Default]. *)
Lemma getNextState_error m e t err :
  getNextState m e = (t, Some err) →
  t = Default ∧ err = ErrEventRejected.
Proof.
  unfold getNextState. intros H.
  repeat (match type of H with
          | context [match ?x with _ => _ end] => destruct x
          end); by simplify_eq.
Qed.

(** A resolved event moves the machine to the resolved state, whether the
    call then returns or panics. *)
Lemma SendEvent_moves m e t :
  getNextState m e = (t, None) → fst (SendEvent m e) = setCurrent m t.
Proof. intros H. unfold SendEvent. by rewrite H. Qed.

(** A rejected event leaves the machine as it was. *)
Lemma SendEvent_rejected m e t err :
  getNextState m e = (t, Some err) →
  SendEvent m e = (m, ([Lock; Unlock], inr (Some ErrEventRejected))).
Proof. intros H. unfold SendEvent. by rewrite H. Qed.

(** A resolved event whose target is registered with no entry action or
    with one of the asserted type: the call returns [nil], after it has
    started the action when there is one. *)
Lemma SendEvent_returns m e t target :
  getNextState m e = (t, None) →
  states m !! t = Some target →
  action target = Nil ∨ (∃ act, action target = Dyn FuncMachine act) →
  snd (snd (SendEvent m e)) = inr None.
Proof.
  intros Hnext Htarget Hact. unfold SendEvent. rewrite Hnext, Htarget.
  destruct Hact as [->|[act ->]]; [done|].
  unfold runHandler. by destruct (synchronous target).
Qed.

(** The same call, with its trace: the entry action is started under the
    lock, once, on the machine in its new state. *)
Lemma SendEvent_starts_action m e t target act :
  getNextState m e = (t, None) →
  states m !! t = Some target →
  action target = Dyn FuncMachine act →
  SendEvent m e
  = (setCurrent m t,
     ([Lock; Println t; started target (CallMachine act (setCurrent m t));
       Unlock],
      inr None)).
Proof.
  intros Hnext Htarget Hact. unfold SendEvent, started, runHandler.
  rewrite Hnext, Htarget, Hact. by destruct (synchronous target).
Qed.

(** A resolved event whose target is not registered: the machine is moved
    and the call panics on the nil state. *)
Lemma SendEvent_unregistered_target m e t :
  getNextState m e = (t, None) →
  states m !! t = None →
  SendEvent m e
  = (setCurrent m t, ([Lock; Println t; Unlock], inl NilDereference)).
Proof. intros Hnext Htarget. unfold SendEvent. by rewrite Hnext, Htarget. Qed.

(** A resolved event whose target has an entry action of another type
    than [func(m *Machine)]: the machine is moved and the call panics with
    the message of the failed assertion. *)
Lemma SendEvent_bad_action m e t target ty act :
  getNextState m e = (t, None) →
  states m !! t = Some target →
  action target = Dyn ty act → ty ≠ FuncMachine →
  SendEvent m e
  = (setCurrent m t,
     ([Lock; Println t; Unlock], inl (PanicValue "stb: action is bad"))).
Proof.
  intros Hnext Htarget Hact Hty. unfold SendEvent.
  rewrite Hnext, Htarget, Hact. simpl.
  by destruct (decide (ty = FuncMachine)).
Qed.

(** [SendEvent] returns an error exactly when [getNextState] does. *)
Lemma SendEvent_error_iff m e :
  snd (snd (SendEvent m e)) = inr (Some ErrEventRejected)
  ↔ snd (getNextState m e) = Some ErrEventRejected.
Proof.
  destruct (getNextState m e) as [t [[]|]] eqn:Hnext; simpl.
  - by rewrite (SendEvent_rejected m e t _ Hnext).
  - split; [|done].
    destruct (states m !! t) as [target|] eqn:Htarget.
    + destruct (action target) as [|ty act] eqn:Hact.
      * by rewrite (SendEvent_returns m e t target Hnext Htarget (or_introl Hact)).
      * destruct (decide (ty = FuncMachine)) as [->|Hty].
        -- by rewrite (SendEvent_starts_action m e t target act Hnext Htarget Hact).
        -- by rewrite (SendEvent_bad_action m e t target ty act Hnext Htarget Hact Hty).
    + by rewrite (SendEvent_unregistered_target m e t Hnext Htarget).
Qed.

(** C1. An event that is neither in the transition table of the current
    state nor in the global table is rejected: [SendEvent] returns
    [ErrEventRejected] and leaves the machine, so also its current state,
    as it was. *)
Theorem SendEvent_rejects_unknown_event m e :
  (∀ st tbl, states m !! current m = Some st → Events st = Some tbl →
             tbl !! e = None) →
  (∀ g, globalEvents m = Some g → g !! e = None) →
  snd (snd (SendEvent m e)) = inr (Some ErrEventRejected)
  ∧ fst (SendEvent m e) = m
  ∧ Current (fst (SendEvent m e)) = Current m.
Proof.
  intros Hlocal Hglobal.
  assert (Hnext : getNextState m e = (Default, Some ErrEventRejected)).
  { rewrite (getNextState_global m e Hlocal).
    destruct (globalEvents m) as [g|] eqn:Eg; [|done].
    by rewrite (Hglobal g eq_refl). }
  by rewrite (SendEvent_rejected m e _ _ Hnext).
Qed.

(** An event that the table of the current state maps to [t], where [t]
    is registered and its entry action is absent or a [func(m *Machine)]:
    [SendEvent] returns no error and the current state is [t] when the
    call has returned. *)
Lemma SendEvent_local_transition m e st tbl t target :
  states m !! current m = Some st → Events st = Some tbl →
  tbl !! e = Some t →
  states m !! t = Some target →
  action target = Nil ∨ (∃ act, action target = Dyn FuncMachine act) →
  snd (snd (SendEvent m e)) = inr None
  ∧ Current (fst (SendEvent m e)) = t.
Proof.
  intros Hst Hev He Htarget Hact.
  pose proof (getNextState_local m e st tbl t Hst Hev He) as Hnext.
  split.
  - by eapply SendEvent_returns.
  - by rewrite (SendEvent_moves m e t Hnext).
Qed.

(** C2, at the failing input.  The table of the current state [Inactive]
    maps [Activate] to [Active], which is not registered: the current
    state becomes [Active], and the call panics on the nil state instead
    of returning [nil]. *)
Theorem SendEvent_local_transition_panics :
  states Examples.machineNoTarget !! current Examples.machineNoTarget
  = Some Examples.inactive
  ∧ Events Examples.inactive = Some (list_to_map [("Activate", "Active")])
  ∧ (list_to_map [("Activate", "Active")] : gmap string string) !! "Activate"
    = Some "Active"
  ∧ snd (snd (SendEvent Examples.machineNoTarget "Activate"))
    = inl NilDereference
  ∧ Current (fst (SendEvent Examples.machineNoTarget "Activate")) = "Active".
Proof. repeat split. Qed.

(** C3, at the failing input.  [Inactive] maps [Activate] to [Active],
    which is not registered: the machine is moved to [Active] and the call
    panics on the nil state instead of returning. *)
Theorem SendEvent_unregistered_target_panics :
  SendEvent Examples.machineNoTarget "Activate"
  = (setCurrent Examples.machineNoTarget "Active",
     ([Lock; Println "Active"; Unlock], inl NilDereference)).
Proof. apply SendEvent_unregistered_target; reflexivity. Qed.

(** C6. The table of the current state is consulted first: an event it
    maps to [t] moves the machine to [t] whatever the global table says,
    and the global table decides only for an event that the table of the
    current state does not have. *)
Theorem SendEvent_local_before_global m e :
  (∀ st tbl t, states m !! current m = Some st → Events st = Some tbl →
     tbl !! e = Some t →
     getNextState m e = (t, None) ∧ Current (fst (SendEvent m e)) = t)
  ∧ (∀ g t,
     (∀ st tbl, states m !! current m = Some st → Events st = Some tbl →
                tbl !! e = None) →
     globalEvents m = Some g → g !! e = Some t →
     getNextState m e = (t, None) ∧ Current (fst (SendEvent m e)) = t).
Proof.
  split.
  - intros st tbl t Hst Hev He.
    pose proof (getNextState_local m e st tbl t Hst Hev He) as Hnext.
    by rewrite (SendEvent_moves m e t Hnext).
  - intros g t Hlocal Hg He.
    assert (Hnext : getNextState m e = (t, None)).
    { by rewrite (getNextState_global m e Hlocal), Hg, He. }
    by rewrite (SendEvent_moves m e t Hnext).
Qed.

(** C10. When the current state is not registered, or is registered with
    a nil transition table, the global table alone decides: an event it
    maps to [t] moves the machine to [t], and [SendEvent] returns
    [ErrEventRejected] exactly when the global table does not have the
    event. *)
Theorem SendEvent_without_local_table m e :
  states m !! current m = None
  ∨ (∃ st, states m !! current m = Some st ∧ Events st = None) →
  (∀ g t, globalEvents m = Some g → g !! e = Some t →
     getNextState m e = (t, None) ∧ Current (fst (SendEvent m e)) = t)
  ∧ (snd (snd (SendEvent m e)) = inr (Some ErrEventRejected)
     ↔ ∀ g, globalEvents m = Some g → g !! e = None).
Proof.
  intros Hno.
  assert (Hlocal : ∀ st tbl, states m !! current m = Some st →
                     Events st = Some tbl → tbl !! e = None).
  { intros st tbl Hst Hev. destruct Hno as [Hno|[st' [Hst' Hev']]];
      congruence. }
  pose proof (getNextState_global m e Hlocal) as Hnext.
  split.
  - intros g t Hg He. rewrite Hg, He in Hnext.
    by rewrite (SendEvent_moves m e t Hnext).
  - rewrite SendEvent_error_iff, Hnext.
    destruct (globalEvents m) as [g|]; simpl.
    + destruct (g !! e) as [t|] eqn:He; simpl.
      * split; [done|]. intros H. specialize (H g eq_refl). congruence.
      * split; [|done]. intros _ g' [= <-]. done.
    + split; [|done]. by intros _ g' [=].
Qed.

End MachineProperties.

(** ** The machine properties on the README configuration *)

Section MachineExamples.
Import Examples.

(** Evaluates a lookup hypothesis on a concrete table and names the value
    it determines. *)
Local Ltac evaluate H := vm_compute in H; injection H as <-.

Lemma SendEvent_rejects_unknown_event_witness :
  (∀ st tbl, states machine !! current machine = Some st →
             Events st = Some tbl → tbl !! "Nope" = None)
  ∧ (∀ g, globalEvents machine = Some g → g !! "Nope" = None)
  ∧ snd (snd (SendEvent machine "Nope")) = inr (Some ErrEventRejected)
  ∧ fst (SendEvent machine "Nope") = machine
  ∧ Current (fst (SendEvent machine "Nope")) = Current machine.
Proof.
  assert (H1 : ∀ st tbl, states machine !! current machine = Some st →
                 Events st = Some tbl → tbl !! "Nope" = None).
  { intros st tbl Hst Hev. evaluate Hst. evaluate Hev. reflexivity. }
  assert (H2 : ∀ g, globalEvents machine = Some g → g !! "Nope" = None).
  { intros g Hg. evaluate Hg. reflexivity. }
  exact (conj H1 (conj H2
           (SendEvent_rejects_unknown_event machine "Nope" H1 H2))).
Defined.

(** [Activate] is in both tables of [machine]: [Inactive] maps it to
    [Active], the global table to [Inactive]. *)
Lemma SendEvent_local_before_global_witness :
  states machine !! current machine = Some inactive
  ∧ globalEvents machine
    = Some (list_to_map [("Cancel", "Inactive"); ("Activate", "Inactive")])
  ∧ getNextState machine "Activate" = ("Active", None)
  ∧ Current (fst (SendEvent machine "Activate")) = "Active"
  ∧ getNextState machine "Cancel" = ("Inactive", None)
  ∧ Current (fst (SendEvent machine "Cancel")) = "Inactive".
Proof.
  split; [reflexivity|]. split; [reflexivity|].
  destruct (SendEvent_local_before_global machine "Activate") as [Hlocal _].
  destruct (SendEvent_local_before_global machine "Cancel") as [_ Hglobal].
  split; [|split; [|split]].
  - apply (Hlocal inactive (list_to_map [("Activate", "Active")]) "Active");
      reflexivity.
  - apply (Hlocal inactive (list_to_map [("Activate", "Active")]) "Active");
      reflexivity.
  - apply (Hglobal
             (list_to_map [("Cancel", "Inactive"); ("Activate", "Inactive")])
             "Inactive"); [|reflexivity..].
    intros st tbl Hst Hev. evaluate Hst. evaluate Hev. reflexivity.
  - apply (Hglobal
             (list_to_map [("Cancel", "Inactive"); ("Activate", "Inactive")])
             "Inactive"); [|reflexivity..].
    intros st tbl Hst Hev. evaluate Hst. evaluate Hev. reflexivity.
Defined.

Lemma SendEvent_without_local_table_witness :
  states machineNoCurrent !! current machineNoCurrent = None
  ∧ getNextState machineNoCurrent "Cancel" = ("Inactive", None)
  ∧ Current (fst (SendEvent machineNoCurrent "Cancel")) = "Inactive"
  ∧ snd (snd (SendEvent machineNoCurrent "Activate"))
    = inr (Some ErrEventRejected).
Proof.
  assert (Hno : states machineNoCurrent !! current machineNoCurrent = None)
    by reflexivity.
  split; [exact Hno|].
  destruct (SendEvent_without_local_table machineNoCurrent "Cancel"
              (or_introl Hno)) as [Hglobal _].
  destruct (SendEvent_without_local_table machineNoCurrent "Activate"
              (or_introl Hno)) as [_ Hrejected].
  split; [|split].
  - apply (Hglobal (list_to_map [("Cancel", "Inactive")]) "Inactive");
      reflexivity.
  - apply (Hglobal (list_to_map [("Cancel", "Inactive")]) "Inactive");
      reflexivity.
  - apply Hrejected. intros g Hg. evaluate Hg. reflexivity.
Defined.

End MachineExamples.

(** * Properties of the dispatcher *)

Section DispatcherProperties.
Context {T : Telebot}.

Implicit Types (s : State) (upd : Update) (m : option Machine)
  (msh msg : Message) (c : Callback).

(** A step that starts nothing and cannot panic can be skipped. *)
Lemma bind_silent {A B : Type} (a : A) (k : A → Exec B) :
  bind ([], inr a) k = k a.
Proof. unfold bind. by destruct (k a). Qed.

Lemma runHandler_started s f : runHandler s f = ([started s f], inr tt).
Proof. unfold runHandler, started, emit. by destruct (synchronous s). Qed.

(** A dispatch that finds a handler of the message shape starts it and
    reports [true]. *)
Lemma handle_registered s key msg m h :
  handlers s !! key = Some (Dyn FuncMessageMachine h) →
  handle s key msg m = ([started s (CallMessageMachine h msg m)], inr true).
Proof.
  intros H. unfold handle. rewrite H. simpl.
  by rewrite runHandler_started.
Qed.

(** A dispatch that finds no handler starts nothing and reports [false]. *)
Lemma handle_unregistered s key msg m :
  handlers s !! key = None → handle s key msg m = ([], inr false).
Proof. intros H. unfold handle. by rewrite H. Qed.

(** A dispatch that finds a value of another type panics: the
    configuration defect of a handler with the wrong parameters shows at
    the first dispatch. *)
Lemma handle_bad_handler s key msg m v :
  handlers s !! key = Some v → typeAssert FuncMessageMachine v = None →
  handle s key msg m
  = ([], inl (PanicValue ("stb: " +:+ key +:+ " handler is bad"))).
Proof. intros H Hv. unfold handle. by rewrite H, Hv. Qed.

Lemma lookupRun_registered s key ty bad f h :
  handlers s !! key = Some (Dyn ty h) →
  lookupRun s key ty bad f = ([started s (f h)], inr true).
Proof.
  intros H. unfold lookupRun. rewrite H. simpl.
  destruct (decide (ty = ty)); [|done]. simpl.
  by rewrite runHandler_started.
Qed.

Lemma lookupRun_unregistered s key ty bad f :
  handlers s !! key = None → lookupRun s key ty bad f = ([], inr false).
Proof. intros H. unfold lookupRun. by rewrite H. Qed.

Lemma handleMedia_noMedia s msg m :
  noMedia msg → handleMedia s msg m = ([], inr false).
Proof.
  intros (H1 & H2 & H3 & H4 & H5 & H6 & H7 & H8 & H9 & H10 & H11 & H12).
  unfold handleMedia.
  by rewrite H1, H2, H3, H4, H5, H6, H7, H8, H9, H10, H11, H12.
Qed.

(** The copy made for a joined user has that user in [UserJoined] and
    differs from the message in no other field: putting the old value
    back gives the message again. *)
Lemma setUserJoined_UserJoined msh u : UserJoined (setUserJoined msh u) = u.
Proof. by destruct msh. Qed.

Lemma setUserJoined_shallow msh u :
  setUserJoined (setUserJoined msh u) (UserJoined msh) = msh.
Proof. by destruct msh. Qed.

(** The variable [b] of the loop, updated by one more dispatch result. *)
Lemma foldr_orb_accumulator (h b : bool) (l : list bool) :
  foldr orb (if h then true else b) l = h || foldr orb b l.
Proof.
  induction l as [|h' l IH]; simpl.
  - by destruct h.
  - rewrite IH. by destruct h, h'.
Qed.

(** The loop over the joined users, from the per-user dispatches: the
    traces in order, and the disjunction of the results and [b]. *)
Lemma usersJoinedLoop_results s msh m users rs b :
  Forall2 (λ u r, handle s OnUserJoined (setUserJoined msh (Some u)) m
                  = (fst r, inr (snd r))) users rs →
  usersJoinedLoop s msh m users b
  = (concat (fst <$> rs), inr (foldr orb b (snd <$> rs))).
Proof.
  intros H. revert b. induction H as [|u [t h] users rs Hu _ IH]; intros b.
  - done.
  - simpl in *. rewrite Hu. simpl. rewrite IH. simpl.
    by rewrite foldr_orb_accumulator.
Qed.

(** The part of [processUpdate] that leads to the loop over the joined
    users. *)
Lemma processUpdate_reaches_loop s upd m msh users :
  UpdMessage upd = Some msh → PinnedMessage msh = None →
  Text msh = EmptyString → noMedia msh →
  Invoice msh = None → Payment msh = None →
  GroupCreated msh = false → SuperGroupCreated msh = false →
  (∀ u, UserJoined msh = Some u → ID u ≠ ID (Me s)) →
  UsersJoined msh = Some users → isUserInList (Me s) users = false →
  processUpdate s upd m = usersJoinedLoop s msh m users false.
Proof.
  intros Hmsg Hpin Htext Hmedia Hinv Hpay Hgc Hsgc Hself Husers Hlist.
  unfold processUpdate, processMessage, processService.
  rewrite Hmsg, Hpin, Htext, (handleMedia_noMedia s msh m Hmedia).
  simpl. rewrite Hinv, Hpay, Hgc, Hsgc, Husers, Hlist. simpl.
  assert (Hjoined : match UserJoined msh with
                    | Some u => bool_decide (ID u = ID (Me s))
                    | None => false
                    end = false).
  { destruct (UserJoined msh) as [u|] eqn:Hu; [|done].
    apply bool_decide_eq_false. by apply Hself. }
  rewrite Hjoined. simpl.
  destruct (usersJoinedLoop s msh m users false) as [t [p|b]]; simpl;
    by rewrite ?app_nil_r.
Qed.

(** *** What the boolean result says about the trace *)

Lemma handle_reportsStart s key msg m : reportsStart (handle s key msg m).
Proof.
  unfold handle. intros t b.
  destruct (handlers s !! key) as [v|]; [|by intros [= <- <-]].
  destruct (typeAssert FuncMessageMachine v); [|done].
  rewrite runHandler_started. by intros [= <- <-].
Qed.

Lemma lookupRun_reportsStart s key ty bad f :
  reportsStart (lookupRun s key ty bad f).
Proof.
  unfold lookupRun. intros t b.
  destruct (handlers s !! key) as [v|]; [|by intros [= <- <-]].
  destruct (typeAssert ty v); [|done].
  rewrite runHandler_started. by intros [= <- <-].
Qed.

(** [h <- x;; if h then ret true else y] *)
Lemma orElse_reportsStart (x y : Exec bool) :
  reportsStart x → reportsStart y →
  reportsStart (h <- x;; if h then ret true else y).
Proof.
  intros Hx Hy t b. destruct x as [t1 [p|h]]; [done|].
  specialize (Hx t1 h eq_refl). simpl. destruct h.
  - simpl. intros [= <- <-]. rewrite app_nil_r. tauto.
  - assert (t1 = []) as ->.
    { destruct t1; [done|]. by destruct Hx as [_ Hx]; discriminate Hx. }
    destruct y as [t2 r]. simpl. intros [= <- ->]. by apply Hy.
Qed.

(** [b <- x;; ret (Some b)] *)
Lemma returned_reportsStart (x : Exec bool) :
  reportsStart x → reportsStartOrLeaves (b <- x;; ret (Some b)).
Proof.
  intros Hx t r. destruct x as [t1 [p|h]]; [done|].
  simpl. intros [= <- <-]. rewrite app_nil_r. by apply Hx.
Qed.

Lemma usersJoinedLoop_reportsStart s msh m users b :
  ∀ t b', usersJoinedLoop s msh m users b = (t, inr b') →
          (b' = true ↔ b = true ∨ t ≠ []).
Proof.
  revert b. induction users as [|u users IH]; intros b t b'; simpl.
  - unfold ret. intros ?; simplify_eq. split; [by left|]. by intros [?|?].
  - pose proof (handle_reportsStart s OnUserJoined
                  (setUserJoined msh (Some u)) m) as Hh.
    destruct (handle s OnUserJoined (setUserJoined msh (Some u)) m)
      as [t1 [p|h]]; [done|].
    specialize (Hh t1 h eq_refl). simpl.
    destruct (usersJoinedLoop s msh m users (if h then true else b))
      as [t2 r] eqn:Hloop.
    intros [= <- ->]. specialize (IH _ _ _ Hloop). rewrite IH.
    destruct h.
    + split; [|tauto]. intros _. right.
      destruct t1; [|done]. by destruct Hh as [Hh _]; specialize (Hh eq_refl).
    + assert (t1 = []) as ->.
      { destruct t1; [done|]. by destruct Hh as [_ Hh]; discriminate Hh. }
      done.
Qed.

Lemma textEndpoints_reportsStart s first msh m :
  reportsStart (textEndpoints s first msh m).
Proof.
  unfold textEndpoints. apply orElse_reportsStart.
  - apply handle_reportsStart.
  - destruct (decide (first = slash)); apply handle_reportsStart.
Qed.

Lemma processText_reportsStart s first msh m :
  reportsStart (processText s first msh m).
Proof.
  unfold processText.
  destruct (decide (first = bell)); [by intros t b [= <- <-]|].
  destruct (cmdRx (Text msh)) as [[[command botName] payload]|];
    [|apply textEndpoints_reportsStart].
  destruct (negb (String.eqb botName "")
            && negb (EqualFold (Username (Me s)) botName));
    [by intros t b [= <- <-]|].
  apply orElse_reportsStart.
  - apply handle_reportsStart.
  - apply textEndpoints_reportsStart.
Qed.

Lemma processCallback_reportsStart s c m :
  reportsStart (processCallback s c m).
Proof.
  unfold processCallback.
  repeat (match goal with
          | |- reportsStart (lookupRun _ _ _ _ _) =>
            apply lookupRun_reportsStart
          | |- reportsStart (match ?x with _ => _ end) => destruct x
          | |- reportsStart (if ?x then _ else _) => destruct x
          end); [|done].
  rewrite runHandler_started. by intros t b [= <- <-].
Qed.

Lemma processOther_reportsStart s upd m :
  reportsStart (processOther s upd m).
Proof.
  unfold processOther.
  repeat (match goal with
          | |- reportsStart (handle _ _ _ _) => apply handle_reportsStart
          | |- reportsStart (lookupRun _ _ _ _ _) =>
            apply lookupRun_reportsStart
          | |- reportsStart (processCallback _ _ _) =>
            apply processCallback_reportsStart
          | |- reportsStart (match ?x with _ => _ end) => destruct x
          end).
  by intros t b [= <- <-].
Qed.

(** After [handleMedia] has returned [false], the rest of the message
    block tells the truth or is left without a start. *)
Lemma processService_reportsStart s msh m :
  noMedia msh → reportsStartOrLeaves (processService s msh m).
Proof.
  intros Hmedia. unfold processService.
  rewrite (handleMedia_noMedia s msh m Hmedia), bind_silent.
  assert (Hloop : ∀ users, reportsStartOrLeaves
            (b <- usersJoinedLoop s msh m users false;; ret (Some b))).
  { intros users t r.
    destruct (usersJoinedLoop s msh m users false) as [t1 [p|b]] eqn:Hl;
      [done|].
    simpl. intros [= <- <-]. rewrite app_nil_r.
    rewrite (usersJoinedLoop_reportsStart _ _ _ _ _ _ _ Hl).
    split; [by intros [?|?]|by right]. }
  repeat (match goal with
          | |- reportsStartOrLeaves (b <- handle _ _ _ _;; ret (Some b)) =>
            apply returned_reportsStart, handle_reportsStart
          | |- reportsStartOrLeaves
                 (b <- lookupRun _ _ _ _ _;; ret (Some b)) =>
            apply returned_reportsStart, lookupRun_reportsStart
          | |- reportsStartOrLeaves
                 (b <- usersJoinedLoop _ _ _ _ _;; ret (Some b)) =>
            apply Hloop
          | |- reportsStartOrLeaves (match ?x with _ => _ end) => destruct x
          | |- reportsStartOrLeaves (if ?x then _ else _) => destruct x
          end).
  by intros t r [= <- <-].
Qed.

(** Outside the media categories the result of [processUpdate] is [true]
    exactly when a handler was started. *)
Lemma processUpdate_reportsStart s upd m :
  (∀ msh, UpdMessage upd = Some msh → PinnedMessage msh = None →
          Text msh = EmptyString → noMedia msh) →
  reportsStart (processUpdate s upd m).
Proof.
  intros Hmedia. unfold processUpdate.
  destruct (UpdMessage upd) as [msh|]; [|apply processOther_reportsStart].
  assert (Hmsg : reportsStartOrLeaves (processMessage s msh m)).
  { unfold processMessage.
    destruct (PinnedMessage msh) eqn:Hpin.
    - apply returned_reportsStart, handle_reportsStart.
    - destruct (Text msh) eqn:Htext.
      + by apply processService_reportsStart, Hmedia.
      + apply returned_reportsStart, processText_reportsStart. }
  intros t b. destruct (processMessage s msh m) as [t1 [p|[b1|]]];
    [done| |]; specialize (Hmsg t1 _ eq_refl); simpl in *.
  - intros ?; simplify_eq. by rewrite app_nil_r.
  - subst t1. destruct (processOther s upd m) as [t2 r] eqn:Ho.
    simpl. intros ?; simplify_eq.
    by apply (processOther_reportsStart s upd m).
Qed.

(** In the media categories the dispatch result is dropped: without any
    handler the result is [true] all the same. *)
Lemma processUpdate_media_without_handler s upd m msh :
  UpdMessage upd = Some msh → PinnedMessage msh = None →
  Text msh = EmptyString → ¬ noMedia msh →
  (∀ key, handlers s !! key = None) →
  processUpdate s upd m = ([], inr true).
Proof.
  intros Hmsg Hpin Htext Hmedia Hnone.
  unfold processUpdate, processMessage, processService.
  rewrite Hmsg, Hpin, Htext.
  assert (Hm : handleMedia s msh m = ([], inr true)); [|by rewrite Hm].
  unfold handleMedia, noMedia in *.
  repeat (match goal with
          | |- context [handle ?s ?k ?msg ?m] =>
            rewrite (handle_unregistered s k msg m (Hnone k))
          | |- context [match ?x with _ => _ end] => destruct x
          end; try done).
  by destruct Hmedia.
Qed.

(** C4, as amended.  A text that parses as a command with a bot name that
    is not the name of this bot, in a message without a pinned message:
    the classifier starts no handler and returns [false]; it does not go
    on to the 1:1 match or to the generic text categories. *)
Theorem processUpdate_command_for_other_bot
    s upd m msh command botName payload :
  UpdMessage upd = Some msh → PinnedMessage msh = None →
  Text msh ≠ EmptyString →
  cmdRx (Text msh) = Some (command, botName, payload) →
  botName ≠ EmptyString →
  EqualFold (Username (Me s)) botName = false →
  processUpdate s upd m = ([], inr false).
Proof.
  intros Hmsg Hpin Htext Hcmd Hname Hfold.
  unfold processUpdate, processMessage. rewrite Hmsg, Hpin.
  destruct (Text msh) as [|c0 rest] eqn:Et; [done|].
  unfold processText. rewrite Et, Hcmd, Hfold.
  destruct (decide (c0 = bell)); [done|].
  destruct botName; [done|]. done.
Qed.

(** C5, at the failing input.  A message with a photo, dispatched by a
    state without any handler: no handler is started and the result is
    [true]. *)
Theorem processUpdate_photo_without_handler :
  processUpdate (T := Examples.telebot) Examples.silent
    (Examples.messageUpdate Examples.photoMessage) None
  = ([], inr true).
Proof. reflexivity. Qed.

(** C7. A callback whose data starts with the escape byte and parses
    into [unique] and [payload]: a callback handler registered for the
    button, under the escape byte followed by [unique], is the one
    started, with the data of the callback replaced by [payload], and the
    result is [true]; without a handler for the button the generic
    callback handler is started with the data as received, or the result
    is [false] when there is none. *)
Theorem processUpdate_callback_button s upd m c rest unique payload :
  UpdMessage upd = None → EditedMessage upd = None →
  ChannelPost upd = None → EditedChannelPost upd = None →
  UpdCallback upd = Some c →
  Data c = String formFeed rest →
  cbackRx (Data c) = Some (unique, payload) →
  (∀ h, handlers s !! String formFeed unique
        = Some (Dyn FuncCallbackMachine h) →
     processUpdate s upd m
     = ([started s (CallCallbackMachine h
                      (setData (withInlineMessage c) payload) m)],
        inr true))
  ∧ (handlers s !! String formFeed unique = None →
     (∀ g, handlers s !! OnCallback = Some (Dyn FuncCallbackMachine g) →
        processUpdate s upd m
        = ([started s (CallCallbackMachine g (withInlineMessage c) m)],
           inr true))
     ∧ (handlers s !! OnCallback = None →
        processUpdate s upd m = ([], inr false))).
Proof.
  intros Hmsg Hed Hch Hech Hcb Hdata Hrx.
  assert (Hupd : processUpdate s upd m = processCallback s c m).
  { unfold processUpdate, processOther. by rewrite Hmsg, Hed, Hch, Hech, Hcb. }
  rewrite Hupd. unfold processCallback. rewrite Hrx, Hdata.
  destruct (decide (formFeed = formFeed)); [|done].
  split.
  - intros h Hh. rewrite Hh. simpl. by rewrite runHandler_started.
  - intros Hnone. rewrite Hnone. split.
    + intros g Hg. by rewrite (lookupRun_registered _ _ _ _ _ _ Hg).
    + intros Hg. by apply lookupRun_unregistered.
Qed.

(** C8. A message with the joined users [users] that reaches the loop
    (no earlier category applies, and the bot was not added itself): the
    per-user dispatches run in order, each on a copy of the message whose
    joined user is that user, and the result is the disjunction of their
    results.  With a handler for joined users there is one start per
    user and the result is [true]; without one nothing starts and the
    result is [false].  The copy made for the user [u] has [u] as its
    joined user, the same list of joined users, and differs from the
    message in no other field. *)
Theorem processUpdate_users_joined s upd m msh users :
  UpdMessage upd = Some msh → PinnedMessage msh = None →
  Text msh = EmptyString → noMedia msh →
  Invoice msh = None → Payment msh = None →
  GroupCreated msh = false → SuperGroupCreated msh = false →
  (∀ u, UserJoined msh = Some u → ID u ≠ ID (Me s)) →
  UsersJoined msh = Some users → isUserInList (Me s) users = false →
  users ≠ [] →
  (∀ rs, Forall2 (λ u r, handle s OnUserJoined (setUserJoined msh (Some u)) m
                         = (fst r, inr (snd r))) users rs →
     processUpdate s upd m
     = (concat (fst <$> rs), inr (foldr orb false (snd <$> rs))))
  ∧ (∀ h, handlers s !! OnUserJoined = Some (Dyn FuncMessageMachine h) →
     processUpdate s upd m
     = ((λ u, started s (CallMessageMachine h
                           (setUserJoined msh (Some u)) m)) <$> users,
        inr true))
  ∧ (handlers s !! OnUserJoined = None →
     processUpdate s upd m = ([], inr false))
  ∧ (∀ u, UserJoined (setUserJoined msh (Some u)) = Some u
          ∧ UsersJoined (setUserJoined msh (Some u)) = Some users
          ∧ setUserJoined (setUserJoined msh (Some u)) (UserJoined msh)
            = msh).
Proof.
  intros Hmsg Hpin Htext Hmedia Hinv Hpay Hgc Hsgc Hself Husers Hlist Hne.
  rewrite (processUpdate_reaches_loop s upd m msh users) by done.
  split; [|split; [|split]]; [| | |
    intros u; split; [apply setUserJoined_UserJoined|];
    split; [|apply setUserJoined_shallow];
    rewrite <- Husers; by destruct msh].
  - intros rs Hrs. by apply usersJoinedLoop_results.
  - intros h Hh.
    rewrite (usersJoinedLoop_results s msh m users
               ((λ u, ([started s (CallMessageMachine h
                                     (setUserJoined msh (Some u)) m)],
                       true)) <$> users)).
    + f_equal.
      * clear. induction users as [|u users IH]; csimpl; [done|].
        by f_equal.
      * by destruct users.
    + clear -Hh. induction users as [|u users IH]; csimpl; constructor;
        [|done].
      simpl. by apply handle_registered.
  - intros Hnone.
    rewrite (usersJoinedLoop_results s msh m users
               ((λ _, ([], false)) <$> users)).
    + f_equal.
      * clear. induction users as [|u users IH]; csimpl; done.
      * f_equal. clear. induction users as [|u users IH]; csimpl; done.
    + clear -Hnone. induction users as [|u users IH]; csimpl; constructor;
        [|done].
      simpl. by apply handle_unregistered.
Qed.

(** C9. A text whose first byte is the reserved ['\a'], in a message
    without a pinned message: the classifier starts no handler and
    returns [false]. *)
Theorem processUpdate_rejects_reserved_text s upd m msh rest :
  UpdMessage upd = Some msh → PinnedMessage msh = None →
  Text msh = String bell rest →
  processUpdate s upd m = ([], inr false).
Proof.
  intros Hmsg Hpin Htext.
  unfold processUpdate, processMessage, processText.
  rewrite Hmsg, Hpin, Htext.
  by destruct (decide (bell = bell)).
Qed.

End DispatcherProperties.

(** ** The dispatcher properties on concrete updates *)

Section DispatcherExamples.
Import Examples.

#[local] Existing Instance telebot.

(** C4 as stated fails: ["/start@bot1 hello"] sent to [bot2] is not
    passed on to the 1:1 match and the generic categories, for which
    [chatty] has handlers; the classifier returns [false] and starts
    nothing. *)
Lemma processUpdate_command_for_other_bot_no_fallthrough :
  processUpdate chatty (messageUpdate (textMessage "/start@bot1 hello")) None
  = ([], inr false)
  ∧ ¬ (∀ s upd m msh c rest command botName payload,
         UpdMessage upd = Some msh → PinnedMessage msh = None →
         Text msh = String c rest →
         cmdRx (Text msh) = Some (command, botName, payload) →
         botName ≠ EmptyString →
         EqualFold (Username (Me s)) botName = false →
         snd (processUpdate s upd m) = snd (textEndpoints s c msh m)).
Proof.
  split; [reflexivity|].
  intros claim.
  specialize (claim chatty
                (messageUpdate (textMessage "/start@bot1 hello")) None
                (textMessage "/start@bot1 hello") slash "start@bot1 hello"
                "/start" "bot1" "hello"
                eq_refl eq_refl eq_refl eq_refl).
  assert (Hname : "bot1" ≠ EmptyString) by discriminate.
  specialize (claim Hname eq_refl).
  vm_compute in claim. discriminate claim.
Qed.

Lemma processUpdate_command_for_other_bot_witness :
  cmdRx (Text (textMessage "/start@bot1 hello"))
  = Some ("/start", "bot1", "hello")
  ∧ EqualFold (Username (Me chatty)) "bot1" = false
  ∧ processUpdate chatty (messageUpdate (textMessage "/start@bot1 hello"))
      None
    = ([], inr false).
Proof.
  split; [reflexivity|]. split; [reflexivity|].
  apply (processUpdate_command_for_other_bot chatty _ None
           (textMessage "/start@bot1 hello") "/start" "bot1" "hello");
    try reflexivity; discriminate.
Defined.

(** ["\fyesBtn|ok"]: [confirming] has a handler for [yesBtn], which gets
    the callback with the data ["ok"]; [listening] has only the generic
    callback handler, which gets the callback as received. *)
Lemma processUpdate_callback_button_witness :
  cbackRx (Data yesOk) = Some ("yesBtn", "ok")
  ∧ processUpdate confirming (callbackUpdate yesOk) None
    = ([Spawn (CallCallbackMachine 7 (mkCallback "ok" "" None) None)],
       inr true)
  ∧ processUpdate listening (callbackUpdate yesOk) None
    = ([Spawn (CallCallbackMachine 8 yesOk None)], inr true).
Proof.
  assert (Hrx : cbackRx (Data yesOk) = Some ("yesBtn", "ok")) by reflexivity.
  split; [exact Hrx|].
  destruct (processUpdate_callback_button confirming (callbackUpdate yesOk)
              None yesOk "yesBtn|ok" "yesBtn" "ok"
              eq_refl eq_refl eq_refl eq_refl eq_refl eq_refl Hrx)
    as [Hbutton _].
  destruct (processUpdate_callback_button listening (callbackUpdate yesOk)
              None yesOk "yesBtn|ok" "yesBtn" "ok"
              eq_refl eq_refl eq_refl eq_refl eq_refl eq_refl Hrx)
    as [_ Hgeneric].
  split.
  - exact (Hbutton 7 eq_refl).
  - destruct (Hgeneric eq_refl) as [Hfound _]. exact (Hfound 8 eq_refl).
Defined.

(** Three users join at once: three starts, one per user, each with its
    own copy of the message, whose joined user is that user. *)
Lemma processUpdate_users_joined_witness :
  UsersJoined (joinMessage [alice; bob; carol]) = Some [alice; bob; carol]
  ∧ isUserInList (Me greeting) [alice; bob; carol] = false
  ∧ processUpdate greeting (messageUpdate (joinMessage [alice; bob; carol]))
      None
    = ([Spawn (CallMessageMachine 5
                 (joinedCopy [alice; bob; carol] alice) None);
        Spawn (CallMessageMachine 5
                 (joinedCopy [alice; bob; carol] bob) None);
        Spawn (CallMessageMachine 5
                 (joinedCopy [alice; bob; carol] carol) None)],
       inr true)
  ∧ UserJoined (setUserJoined (joinMessage [alice; bob; carol]) (Some bob))
    = Some bob.
Proof.
  split; [reflexivity|]. split; [reflexivity|].
  assert (Hmedia : noMedia (joinMessage [alice; bob; carol])).
  { repeat split. }
  assert (Hself : ∀ u, UserJoined (joinMessage [alice; bob; carol]) = Some u →
                       ID u ≠ ID (Me greeting)).
  { intros u Hu. discriminate Hu. }
  assert (Hne : [alice; bob; carol] ≠ []) by discriminate.
  destruct (processUpdate_users_joined greeting
              (messageUpdate (joinMessage [alice; bob; carol])) None
              (joinMessage [alice; bob; carol]) [alice; bob; carol]
              eq_refl eq_refl eq_refl Hmedia eq_refl eq_refl eq_refl eq_refl
              Hself eq_refl eq_refl Hne)
    as (_ & Hstarts & _ & Hcopy).
  split.
  - exact (Hstarts 5 eq_refl).
  - exact (proj1 (Hcopy bob)).
Defined.

Lemma processUpdate_rejects_reserved_text_witness :
  Text (textMessage (String bell "text")) = String bell "text"
  ∧ processUpdate chatty (messageUpdate (textMessage (String bell "text")))
      None
    = ([], inr false).
Proof.
  split; [reflexivity|].
  apply (processUpdate_rejects_reserved_text chatty _ None
           (textMessage (String bell "text")) "text"); reflexivity.
Defined.

End DispatcherExamples.

(** * Further properties of the machine *)

Section MachineCoverage.

Implicit Types (m : Machine) (e : EventType) (t : StateType).

(** A resolved event whose target is registered without an entry action:
    the call logs the state and returns [nil]. *)
Lemma SendEvent_no_action m e t target :
  getNextState m e = (t, None) →
  states m !! t = Some target →
  action target = Nil →
  SendEvent m e = (setCurrent m t, ([Lock; Println t; Unlock], inr None)).
Proof.
  intros Hnext Htarget Hact. unfold SendEvent.
  by rewrite Hnext, Htarget, Hact.
Qed.

(** The five ways in which a call of [SendEvent] ends. *)
Lemma SendEvent_cases m e :
  SendEvent m e = (m, ([Lock; Unlock], inr (Some ErrEventRejected)))
  ∨ ∃ t, getNextState m e = (t, None)
    ∧ (SendEvent m e
       = (setCurrent m t, ([Lock; Println t; Unlock], inl NilDereference))
       ∨ SendEvent m e
         = (setCurrent m t, ([Lock; Println t; Unlock], inr None))
       ∨ SendEvent m e
         = (setCurrent m t,
            ([Lock; Println t; Unlock], inl (PanicValue "stb: action is bad")))
       ∨ ∃ target act, states m !! t = Some target
         ∧ SendEvent m e
           = (setCurrent m t,
              ([Lock; Println t;
                started target (CallMachine act (setCurrent m t)); Unlock],
               inr None))).
Proof.
  destruct (getNextState m e) as [t [err|]] eqn:Hnext.
  - left. by eapply SendEvent_rejected.
  - right. exists t. split; [done|].
    destruct (states m !! t) as [target|] eqn:Htarget.
    + destruct (action target) as [|ty act] eqn:Hact.
      * right. left. by eapply SendEvent_no_action.
      * destruct (decide (ty = FuncMachine)) as [->|Hty].
        -- do 3 right. exists target, act. split; [done|].
           by apply SendEvent_starts_action.
        -- right. right. left. by eapply SendEvent_bad_action.
    + left. by apply SendEvent_unregistered_target.
Qed.

(** What the statements of [SendEvent] themselves leave as it was. *)
Lemma SendEvent_frame m e :
  who (fst (SendEvent m e)) = who m
  ∧ ctx (fst (SendEvent m e)) = ctx m
  ∧ states (fst (SendEvent m e)) = states m
  ∧ globalEvents (fst (SendEvent m e)) = globalEvents m.
Proof.
  destruct (SendEvent_cases m e)
    as [->|(t & _ & [->|[->|[->|(target & act & _ & ->)]]])]; done.
Qed.

(** X1. A call of [SendEvent] that starts no entry action (the event is
    rejected, the target has no action, or the call panics) writes no
    field of the machine but [current]: the sender, the context, the
    table of states and the global table are as before. *)
Theorem SendEvent_writes_only_current m e :
  (∀ f, Inline f ∉ fst (snd (SendEvent m e))) →
  (∀ f, Spawn f ∉ fst (snd (SendEvent m e))) →
  who (fst (SendEvent m e)) = who m
  ∧ ctx (fst (SendEvent m e)) = ctx m
  ∧ states (fst (SendEvent m e)) = states m
  ∧ globalEvents (fst (SendEvent m e)) = globalEvents m.
Proof. intros _ _. apply SendEvent_frame. Qed.

(** X2. On every exit of [SendEvent], by return or by panic, the mutex
    was locked first and unlocked last, once each. *)
Theorem SendEvent_locks_and_unlocks m e :
  ∃ mid, fst (snd (SendEvent m e)) = Lock :: (mid ++ [Unlock])
         ∧ (Lock ∉ mid) ∧ (Unlock ∉ mid).
Proof.
  destruct (SendEvent_cases m e)
    as [->|(t & _ & [->|[->|[->|(target & act & _ & ->)]]])]; simpl.
  - exists []. split; [done|]. split; apply not_elem_of_nil.
  - exists [Println t]. split; [done|].
    split; intros H; apply list_elem_of_singleton in H; discriminate H.
  - exists [Println t]. split; [done|].
    split; intros H; apply list_elem_of_singleton in H; discriminate H.
  - exists [Println t]. split; [done|].
    split; intros H; apply list_elem_of_singleton in H; discriminate H.
  - exists [Println t; started target (CallMachine act (setCurrent m t))].
    split; [done|].
    split; intros H; apply elem_of_cons in H as [H|H]; try discriminate H;
      apply list_elem_of_singleton in H; unfold started in H;
      destruct (synchronous target); discriminate H.
Qed.


(** X4. A resolved event whose target is registered without an entry
    action: nothing is started, the call returns [nil] and the current
    state of the machine is the target. *)
Theorem SendEvent_without_entry_action m e t target :
  getNextState m e = (t, None) →
  states m !! t = Some target →
  action target = Nil →
  snd (SendEvent m e) = ([Lock; Println t; Unlock], inr None)
  ∧ Current (fst (SendEvent m e)) = t.
Proof.
  intros Hnext Htarget Hact.
  by rewrite (SendEvent_no_action m e t target Hnext Htarget Hact).
Qed.

(** X5. A resolved event whose target has an entry action of another
    type than [func(m *Machine)]: the call panics with
    ["stb: action is bad"], nothing is started, the mutex is unlocked,
    and the current state of the machine is already the target. *)
Theorem SendEvent_action_of_other_type m e t target ty act :
  getNextState m e = (t, None) →
  states m !! t = Some target →
  action target = Dyn ty act → ty ≠ FuncMachine →
  snd (SendEvent m e)
  = ([Lock; Println t; Unlock], inl (PanicValue "stb: action is bad"))
  ∧ Current (fst (SendEvent m e)) = t.
Proof.
  intros Hnext Htarget Hact Hty.
  by rewrite (SendEvent_bad_action m e t target ty act Hnext Htarget Hact Hty).
Qed.

(** X6. [SendEvent] moves the machine only along a transition of the
    event: the current state after the call is the one before, or the
    target of the event in the table of the current state, or its target
    in the global table. *)
Theorem SendEvent_moves_along_transition m e :
  current (fst (SendEvent m e)) = current m
  ∨ (∃ st tbl, states m !! current m = Some st ∧ Events st = Some tbl
       ∧ tbl !! e = Some (current (fst (SendEvent m e))))
  ∨ (∃ g, globalEvents m = Some g
       ∧ g !! e = Some (current (fst (SendEvent m e)))).
Proof.
  destruct (getNextState m e) as [t [err|]] eqn:Hnext.
  - left. by rewrite (SendEvent_rejected m e t err Hnext).
  - right. rewrite (SendEvent_moves m e t Hnext). simpl.
    unfold getNextState in Hnext.
    destruct (states m !! current m) as [st|] eqn:Hst.
    + destruct (Events st) as [tbl|] eqn:Hev.
      * destruct (tbl !! e) as [t'|] eqn:He.
        -- left. exists st, tbl. by simplify_eq.
        -- right. destruct (globalEvents m) as [g|]; [|done].
           exists g. split; [done|]. by destruct (g !! e); simplify_eq.
      * right. destruct (globalEvents m) as [g|]; [|done].
        exists g. split; [done|]. by destruct (g !! e); simplify_eq.
    + right. destruct (globalEvents m) as [g|]; [|done].
      exists g. split; [done|]. by destruct (g !! e); simplify_eq.
Qed.


(** X8. [Set] replaces the context and nothing else: [Get] returns the
    new value, the user and the current state are kept, and a call of
    [SendEvent] ends the same way and in the same state as without the
    [Set]: the context has no part in a transition. *)
Theorem Machine_Set_replaces_context m c e :
  Machine_Get (Machine_Set m c) = c
  ∧ Machine_User (Machine_Set m c) = Machine_User m
  ∧ Current (Machine_Set m c) = Current m
  ∧ Current (fst (SendEvent (Machine_Set m c) e))
    = Current (fst (SendEvent m e))
  ∧ snd (snd (SendEvent (Machine_Set m c) e)) = snd (snd (SendEvent m e)).
Proof.
  split; [done|]. split; [done|]. split; [done|].
  assert (Hsame : getNextState (Machine_Set m c) e = getNextState m e)
    by done.
  unfold SendEvent. rewrite Hsame.
  destruct (getNextState m e) as [t [err|]]; [done|]. simpl.
  split; [done|].
  destruct (states m !! t) as [target|]; [|done].
  destruct (action target) as [|ty act]; [done|].
  destruct (typeAssert FuncMachine (Dyn ty act)); [|done].
  unfold runHandler. by destruct (synchronous target).
Qed.

End MachineCoverage.

(** * Further properties of the dispatcher *)

Section DispatcherCoverage.
Context {T : Telebot}.

Implicit Types (s : State) (upd : Update) (m : option Machine)
  (msh msg : Message) (c : Callback).

(** *** The shape of every run *)

Lemma tidy_quiet {A : Type} s n (quiet : A → bool) (a : A) :
  tidy s n quiet ([], inr a).
Proof. split; [constructor|]. split; [simpl; lia|done]. Qed.

Lemma tidy_panic {A : Type} s n (quiet : A → bool) p :
  tidy s n quiet ([], inl p : panic + A).
Proof. split; [constructor|]. split; [simpl; lia|done]. Qed.

Lemma tidy_start s n f :
  1 ≤ n → tidy s n negb ([started s f], inr true).
Proof.
  intros Hn. split; [repeat constructor; by exists f|].
  split; [done|]. simpl. discriminate.
Qed.

Lemma tidy_more {A : Type} s n n' (quiet : A → bool) (x : Exec A) :
  n ≤ n' → tidy s n quiet x → tidy s n' quiet x.
Proof. intros Hn (H1 & H2 & H3). split; [done|]. split; [lia|done]. Qed.

Lemma handle_tidy s key msg m : tidy s 1 negb (handle s key msg m).
Proof.
  unfold handle.
  destruct (handlers s !! key) as [v|]; [|apply tidy_quiet].
  destruct (typeAssert FuncMessageMachine v); [|apply tidy_panic].
  rewrite runHandler_started. by apply tidy_start.
Qed.

Lemma lookupRun_tidy s key ty bad f : tidy s 1 negb (lookupRun s key ty bad f).
Proof.
  unfold lookupRun.
  destruct (handlers s !! key) as [v|]; [|apply tidy_quiet].
  destruct (typeAssert ty v); [|apply tidy_panic].
  rewrite runHandler_started. by apply tidy_start.
Qed.

(** [h <- x;; if h then ret true else y] *)
Lemma orElse_tidy s n (x y : Exec bool) :
  tidy s n negb x → tidy s n negb y →
  tidy s n negb (h <- x;; if h then ret true else y).
Proof.
  intros Hx Hy. destruct x as [t1 [p|h]]; [done|].
  destruct h.
  - simpl. by rewrite app_nil_r.
  - destruct Hx as (_ & _ & Hx). simpl in Hx. rewrite (Hx eq_refl).
    by rewrite bind_silent.
Qed.

(** [b <- x;; ret (Some b)] *)
Lemma returned_tidy s n (x : Exec bool) :
  tidy s n negb x → tidy s n quietOrLeft (b <- x;; ret (Some b)).
Proof.
  intros Hx. destruct x as [t1 [p|h]]; [done|].
  simpl. rewrite app_nil_r. destruct Hx as (H1 & H2 & H3).
  split; [done|]. split; [done|]. simpl in *. by destruct h.
Qed.

(** The loop over the joined users, by the entry of the handlers under
    [OnUserJoined]: without one nothing happens, one of the message shape
    is started for every user, and any other value makes the first
    dispatch panic. *)
Lemma usersJoinedLoop_shape s msh m users b :
  usersJoinedLoop s msh m users b
  = match handlers s !! OnUserJoined with
    | None => ([], inr b)
    | Some v =>
      match typeAssert FuncMessageMachine v, users with
      | Some h, _ =>
        ((λ u, started s (CallMessageMachine h
                            (setUserJoined msh (Some u)) m)) <$> users,
         inr (match users with [] => b | _ => true end))
      | None, [] => ([], inr b)
      | None, _ :: _ =>
        ([], inl (PanicValue ("stb: " +:+ OnUserJoined +:+ " handler is bad")))
      end
    end.
Proof.
  revert b. induction users as [|u users IH]; intros b.
  - simpl. destruct (handlers s !! OnUserJoined) as [v|]; [|done].
    by destruct (typeAssert FuncMessageMachine v).
  - simpl. unfold handle at 1.
    destruct (handlers s !! OnUserJoined) as [v|] eqn:Hv.
    + destruct (typeAssert FuncMessageMachine v) as [h|] eqn:Hh; [|done].
      rewrite runHandler_started. simpl. rewrite IH.
      by destruct users.
    + simpl. by rewrite IH.
Qed.

Lemma usersJoinedLoop_tidy s msh m users :
  tidy s (max 1 (length users)) negb (usersJoinedLoop s msh m users false).
Proof.
  rewrite usersJoinedLoop_shape.
  destruct (handlers s !! OnUserJoined) as [v|]; [|apply tidy_quiet].
  destruct (typeAssert FuncMessageMachine v) as [h|].
  - split; [|split].
    + simpl. apply Forall_fmap, Forall_forall. intros u _. simpl. by eexists.
    + simpl. rewrite length_fmap. lia.
    + simpl. by destruct users.
  - destruct users; [apply tidy_quiet|apply tidy_panic].
Qed.

Lemma handleMedia_tidy s msg m : tidy s 1 negb (handleMedia s msg m).
Proof.
  unfold handleMedia.
  repeat (match goal with
          | |- tidy _ _ _ (match ?x with _ => _ end) => destruct x
          end);
    try apply tidy_quiet;
    match goal with
    | |- tidy _ _ _ (handle ?s ?k ?msg ?m;;; _) =>
      pose proof (handle_tidy s k msg m) as (H1 & H2 & H3);
      destruct (handle s k msg m) as [t [p|h]]; [done|];
      simpl; rewrite app_nil_r; split; [done|]; split; [done|];
      simpl; discriminate
    end.
Qed.

Lemma textEndpoints_tidy s first msh m :
  tidy s 1 negb (textEndpoints s first msh m).
Proof.
  unfold textEndpoints. apply orElse_tidy; [apply handle_tidy|].
  destruct (decide (first = slash)); apply handle_tidy.
Qed.

Lemma processText_tidy s first msh m :
  tidy s 1 negb (processText s first msh m).
Proof.
  unfold processText.
  destruct (decide (first = bell)); [apply tidy_quiet|].
  destruct (cmdRx (Text msh)) as [[[command botName] payload]|];
    [|apply textEndpoints_tidy].
  destruct (negb (String.eqb botName "")
            && negb (EqualFold (Username (Me s)) botName));
    [apply tidy_quiet|].
  apply orElse_tidy; [apply handle_tidy|apply textEndpoints_tidy].
Qed.

Lemma processCallback_tidy s c m : tidy s 1 negb (processCallback s c m).
Proof.
  unfold processCallback.
  repeat (match goal with
          | |- tidy _ _ _ (lookupRun _ _ _ _ _) => apply lookupRun_tidy
          | |- tidy _ _ _ (raise _) => apply tidy_panic
          | |- tidy _ _ _ (match ?x with _ => _ end) => destruct x
          | |- tidy _ _ _ (if ?x then _ else _) => destruct x
          end).
  rewrite runHandler_started. by apply tidy_start.
Qed.

Lemma processOther_tidy s upd m : tidy s 1 negb (processOther s upd m).
Proof.
  unfold processOther.
  repeat (match goal with
          | |- tidy _ _ _ (handle _ _ _ _) => apply handle_tidy
          | |- tidy _ _ _ (lookupRun _ _ _ _ _) => apply lookupRun_tidy
          | |- tidy _ _ _ (processCallback _ _ _) => apply processCallback_tidy
          | |- tidy _ _ _ (match ?x with _ => _ end) => destruct x
          end).
  apply tidy_quiet.
Qed.

Lemma processService_tidy s msh m :
  tidy s (match UsersJoined msh with
          | Some users => max 1 (length users)
          | None => 1
          end) quietOrLeft (processService s msh m).
Proof.
  unfold processService.
  pose proof (handleMedia_tidy s msh m) as (H1 & H2 & H3).
  destruct (handleMedia s msh m) as [t [p|media]].
  { split; [done|]. split; [|done]. simpl in *. destruct (UsersJoined msh); lia. }
  destruct media.
  { simpl. rewrite app_nil_r. split; [done|]. split; [|done].
    simpl in *. destruct (UsersJoined msh); lia. }
  simpl in H3. rewrite (H3 eq_refl), bind_silent. clear H1 H2 H3.
  repeat (match goal with
          | |- tidy _ _ _ (b <- handle _ _ _ _;; ret (Some b)) =>
            apply (tidy_more _ 1); [destruct (UsersJoined msh); lia|];
            apply returned_tidy, handle_tidy
          | |- tidy _ _ _ (b <- lookupRun _ _ _ _ _;; ret (Some b)) =>
            apply (tidy_more _ 1); [destruct (UsersJoined msh); lia|];
            apply returned_tidy, lookupRun_tidy
          | |- tidy _ _ _ (b <- usersJoinedLoop _ _ _ _ _;; ret (Some b)) =>
            apply returned_tidy, usersJoinedLoop_tidy
          | |- tidy _ _ _ (ret None) => apply tidy_quiet
          | |- tidy _ _ _ (match ?x with _ => _ end) => destruct x eqn:?
          | |- tidy _ _ _ (if ?x then _ else _) => destruct x eqn:?
          end).
Qed.

Lemma processUpdate_tidy s upd m :
  tidy s (fanOut upd) negb (processUpdate s upd m).
Proof.
  unfold processUpdate, fanOut.
  destruct (UpdMessage upd) as [msh|]; [|apply processOther_tidy].
  assert (Hmsg : tidy s (match UsersJoined msh with
                         | Some users => max 1 (length users)
                         | None => 1
                         end) quietOrLeft (processMessage s msh m)).
  { unfold processMessage.
    destruct (PinnedMessage msh).
    - apply (tidy_more _ 1); [destruct (UsersJoined msh); lia|].
      apply returned_tidy, handle_tidy.
    - destruct (Text msh).
      + apply processService_tidy.
      + apply (tidy_more _ 1); [destruct (UsersJoined msh); lia|].
        apply returned_tidy, processText_tidy. }
  destruct (processMessage s msh m) as [t [p|[b|]]]; [done| |].
  - simpl. rewrite app_nil_r. destruct Hmsg as (H1 & H2 & H3).
    split; [done|]. split; [done|]. simpl in *. by destruct b.
  - destruct Hmsg as (_ & _ & H3). simpl in H3. rewrite (H3 eq_refl).
    rewrite bind_silent. apply (tidy_more _ 1);
      [destruct (UsersJoined msh); lia|]. apply processOther_tidy.
Qed.

(** X9. A dispatch that returns [false] has started nothing, in every
    category: the caller can pass the update on to the global handlers
    without running anything twice. *)
Theorem processUpdate_false_starts_nothing s upd m t :
  processUpdate s upd m = (t, inr false) → t = [].
Proof.
  intros H. destruct (processUpdate_tidy s upd m) as (_ & _ & Hq).
  rewrite H in Hq. by apply Hq.
Qed.

(** X10. A dispatch that panics has started nothing: a handler of the
    wrong type is found out before any handler runs, also among several
    joined users. *)
Theorem processUpdate_panic_starts_nothing s upd m t p :
  processUpdate s upd m = (t, inl p) → t = [].
Proof.
  intros H. destruct (processUpdate_tidy s upd m) as (_ & _ & Hq).
  by rewrite H in Hq.
Qed.

(** X11. One update starts at most one handler, or at most one per
    joined user when the message carries a list of joined users. *)
Theorem processUpdate_starts_at_most_one s upd m :
  length (fst (processUpdate s upd m)) ≤ 1
  ∨ ∃ msh users, UpdMessage upd = Some msh ∧ UsersJoined msh = Some users
      ∧ length (fst (processUpdate s upd m)) ≤ length users.
Proof.
  destruct (processUpdate_tidy s upd m) as (_ & Hn & _).
  unfold fanOut in Hn.
  destruct (UpdMessage upd) as [msh|]; [|by left].
  destruct (UsersJoined msh) as [users|] eqn:Hu; [|by left].
  destruct (decide (length (fst (processUpdate s upd m)) ≤ 1)); [by left|].
  right. exists msh, users. split; [done|]. split; [done|]. lia.
Qed.

(** X12. The dispatcher starts handlers only the way the state says: all
    inline when the state is synchronous, all in goroutines when it is
    not; the trace of a dispatch holds nothing else. *)
Theorem processUpdate_starts_as_configured s upd m :
  Forall (λ e, ∃ f, e = if synchronous s then Inline f else Spawn f)
         (fst (processUpdate s upd m)).
Proof. by destruct (processUpdate_tidy s upd m) as (H & _ & _). Qed.

(** *** Where a text goes *)

Lemma processUpdate_text s upd m msh first rest :
  UpdMessage upd = Some msh → PinnedMessage msh = None →
  Text msh = String first rest →
  processUpdate s upd m = processText s first msh m.
Proof.
  intros Hmsg Hpin Htext. unfold processUpdate, processMessage.
  rewrite Hmsg, Hpin, Htext.
  destruct (processText s first msh m) as [t [p|b]]; simpl;
    by rewrite ?app_nil_r.
Qed.

Lemma setPayload_fields msh p :
  Payload (setPayload msh p) = p ∧ Text (setPayload msh p) = Text msh
  ∧ setPayload (setPayload msh p) (Payload msh) = msh.
Proof. by destruct msh. Qed.

(** X13. A text that parses as a command for this bot (no bot name, or
    the name of this bot) and whose command has a handler: that handler
    is started on the message with the parsed payload in [Payload], and
    nothing else is tried. *)
Theorem processUpdate_command
    s upd m msh first rest command botName payload h :
  UpdMessage upd = Some msh → PinnedMessage msh = None →
  Text msh = String first rest → first ≠ bell →
  cmdRx (Text msh) = Some (command, botName, payload) →
  botName = EmptyString ∨ EqualFold (Username (Me s)) botName = true →
  handlers s !! command = Some (Dyn FuncMessageMachine h) →
  processUpdate s upd m
  = ([started s (CallMessageMachine h (setPayload msh payload) m)], inr true)
  ∧ Payload (setPayload msh payload) = payload
  ∧ Text (setPayload msh payload) = Text msh.
Proof.
  intros Hmsg Hpin Htext Hfirst Hcmd Hname Hh.
  split; [|by destruct (setPayload_fields msh payload) as (? & ? & _)].
  rewrite (processUpdate_text s upd m msh first rest) by done.
  unfold processText. rewrite Hcmd.
  destruct (decide (first = bell)); [done|].
  assert (Hguard : negb (String.eqb botName "")
                   && negb (EqualFold (Username (Me s)) botName) = false).
  { destruct Hname as [-> | ->]; [done|]. by rewrite andb_false_r. }
  rewrite Hguard.
  by rewrite (handle_registered s command _ m h Hh).
Qed.

(** X14. A text whose first byte is not the reserved ['\a'], in a
    message without a pinned message, that does not parse as a command
    and is itself the key of a handler: that handler is started on the
    message as received, whether or not the state has handlers for the
    generic text categories. *)
Theorem processUpdate_literal_text s upd m msh first rest h :
  UpdMessage upd = Some msh → PinnedMessage msh = None →
  Text msh = String first rest → first ≠ bell →
  cmdRx (Text msh) = None →
  handlers s !! Text msh = Some (Dyn FuncMessageMachine h) →
  processUpdate s upd m = ([started s (CallMessageMachine h msh m)], inr true).
Proof.
  intros Hmsg Hpin Htext Hfirst Hcmd Hh.
  rewrite (processUpdate_text s upd m msh first rest) by done.
  unfold processText, textEndpoints. rewrite Hcmd.
  destruct (decide (first = bell)); [done|].
  by rewrite (handle_registered s (Text msh) msh m h Hh).
Qed.

(** X15. A text whose first byte is not the reserved ['\a'], in a
    message without a pinned message, that does not parse as a command
    and is not the key of a handler goes to one generic category, by its
    first byte: to [OnCommand] when that is ['/'], to [OnText] for every
    other byte but ['\a']. *)
Theorem processUpdate_generic_text s upd m msh first rest :
  UpdMessage upd = Some msh → PinnedMessage msh = None →
  Text msh = String first rest → first ≠ bell →
  cmdRx (Text msh) = None →
  handlers s !! Text msh = None →
  processUpdate s upd m
  = handle s (if decide (first = slash) then OnCommand else OnText) msh m.
Proof.
  intros Hmsg Hpin Htext Hfirst Hcmd Hnone.
  rewrite (processUpdate_text s upd m msh first rest) by done.
  unfold processText, textEndpoints. rewrite Hcmd.
  destruct (decide (first = bell)); [done|].
  rewrite (handle_unregistered s (Text msh) msh m Hnone), bind_silent.
  by destruct (decide (first = slash)).
Qed.

(** X16. A command for this bot (first byte not ['\a'], no pinned
    message) without a handler for the command and without one for the
    whole text also goes to the generic category of its first byte, on
    the message whose [Payload] is the parsed payload and whose [Text] is
    as received: the payload is written before the command is looked
    up. *)
Theorem processUpdate_unregistered_command
    s upd m msh first rest command botName payload :
  UpdMessage upd = Some msh → PinnedMessage msh = None →
  Text msh = String first rest → first ≠ bell →
  cmdRx (Text msh) = Some (command, botName, payload) →
  botName = EmptyString ∨ EqualFold (Username (Me s)) botName = true →
  handlers s !! command = None →
  handlers s !! Text msh = None →
  processUpdate s upd m
  = handle s (if decide (first = slash) then OnCommand else OnText)
      (setPayload msh payload) m
  ∧ Payload (setPayload msh payload) = payload
  ∧ Text (setPayload msh payload) = Text msh.
Proof.
  intros Hmsg Hpin Htext Hfirst Hcmd Hname Hc Hnone.
  split; [|by destruct (setPayload_fields msh payload) as (? & ? & _)].
  rewrite (processUpdate_text s upd m msh first rest) by done.
  unfold processText, textEndpoints. rewrite Hcmd.
  destruct (decide (first = bell)); [done|].
  assert (Hguard : negb (String.eqb botName "")
                   && negb (EqualFold (Username (Me s)) botName) = false).
  { destruct Hname as [-> | ->]; [done|]. by rewrite andb_false_r. }
  rewrite Hguard.
  rewrite (handle_unregistered s command _ m Hc), bind_silent.
  destruct (setPayload_fields msh payload) as (_ & -> & _).
  rewrite (handle_unregistered s (Text msh) _ m Hnone), bind_silent.
  by destruct (decide (first = slash)).
Qed.

(** X17. A pinned message is dispatched as such and as nothing else:
    neither its text nor its media, nor any other branch of the update,
    is looked at. *)
Theorem processUpdate_pinned_first s upd m msh pinned :
  UpdMessage upd = Some msh → PinnedMessage msh = Some pinned →
  processUpdate s upd m = handle s OnPinned msh m.
Proof.
  intros Hmsg Hpin. unfold processUpdate, processMessage.
  rewrite Hmsg, Hpin.
  destruct (handle s OnPinned msh m) as [t [p|b]]; simpl;
    by rewrite ?app_nil_r.
Qed.

(** *** Joined users and callbacks *)

Lemma isUserInList_elem (me u : User) (users : list User) :
  u ∈ users → ID u = ID me → isUserInList me users = true.
Proof.
  intros Hu Hid. unfold isUserInList. apply existsb_exists.
  exists u. split; [by apply list_elem_of_In|]. by apply bool_decide_eq_true.
Qed.

(** X18. When the bot is itself among the joined users, the message is
    dispatched once, as the bot being added to a group, on the message
    as received: there is no dispatch per joined user. *)
Theorem processUpdate_bot_added s upd m msh users u :
  UpdMessage upd = Some msh → PinnedMessage msh = None →
  Text msh = EmptyString → noMedia msh →
  Invoice msh = None → Payment msh = None →
  UsersJoined msh = Some users → u ∈ users → ID u = ID (Me s) →
  processUpdate s upd m = handle s OnAddedToGroup msh m.
Proof.
  intros Hmsg Hpin Htext Hmedia Hinv Hpay Husers Hu Hid.
  unfold processUpdate, processMessage, processService.
  rewrite Hmsg, Hpin, Htext, (handleMedia_noMedia s msh m Hmedia), bind_silent.
  rewrite Hinv, Hpay, Husers, (isUserInList_elem (Me s) u users Hu Hid).
  rewrite !orb_true_r.
  destruct (handle s OnAddedToGroup msh m) as [t [p|b]]; simpl;
    by rewrite ?app_nil_r.
Qed.

(** X19. A list of joined users that is present and empty ends the
    dispatch: the result is [false] and nothing is started, also when
    the message names a user who left and the update has other
    branches. *)
Theorem processUpdate_no_joined_user s upd m msh :
  UpdMessage upd = Some msh → PinnedMessage msh = None →
  Text msh = EmptyString → noMedia msh →
  Invoice msh = None → Payment msh = None →
  GroupCreated msh = false → SuperGroupCreated msh = false →
  (∀ u, UserJoined msh = Some u → ID u ≠ ID (Me s)) →
  UsersJoined msh = Some [] →
  processUpdate s upd m = ([], inr false).
Proof.
  intros Hmsg Hpin Htext Hmedia Hinv Hpay Hgc Hsgc Hself Husers.
  by rewrite (processUpdate_reaches_loop s upd m msh []).
Qed.

(** X20. A callback whose data is empty, does not start with the escape
    byte or does not parse goes to the generic callback handler with its
    data as received; without that handler the result is [false]. *)
Theorem processUpdate_plain_callback s upd m c :
  UpdMessage upd = None → EditedMessage upd = None →
  ChannelPost upd = None → EditedChannelPost upd = None →
  UpdCallback upd = Some c →
  Data c = EmptyString
  ∨ (∃ d rest, Data c = String d rest ∧ d ≠ formFeed)
  ∨ cbackRx (Data c) = None →
  (∀ g, handlers s !! OnCallback = Some (Dyn FuncCallbackMachine g) →
     processUpdate s upd m
     = ([started s (CallCallbackMachine g (withInlineMessage c) m)],
        inr true)
     ∧ Data (withInlineMessage c) = Data c)
  ∧ (handlers s !! OnCallback = None →
     processUpdate s upd m = ([], inr false)).
Proof.
  intros Hmsg Hed Hch Hech Hcb Hplain.
  assert (Hupd : processUpdate s upd m
                 = lookupRun s OnCallback FuncCallbackMachine
                     "stb: callback handler is bad"
                     (λ h, CallCallbackMachine h (withInlineMessage c) m)).
  { unfold processUpdate, processOther. rewrite Hmsg, Hed, Hch, Hech, Hcb.
    unfold processCallback.
    destruct Hplain as [-> | [(d & rest & -> & Hd) | ->]]; [done| |].
    - by destruct (decide (d = formFeed)).
    - destruct (Data c) as [|d rest]; [done|].
      by destruct (decide (d = formFeed)). }
  rewrite Hupd. split.
  - intros g Hg. split.
    + exact (lookupRun_registered s OnCallback FuncCallbackMachine _
               (λ h, CallCallbackMachine h (withInlineMessage c) m) g Hg).
    + clear. destruct c as [d mid msg]. unfold withInlineMessage. simpl.
      by destruct d, mid.
  - intros Hg. by apply lookupRun_unregistered.
Qed.

End DispatcherCoverage.

(** * Properties of the registration methods *)

Section RegistrationCoverage.
Context {T : Telebot}.

Implicit Types (s : State) (upd : Update) (m : option Machine)
  (msh msg : Message) (c : Callback).

(** The key under which [Handle] stores, for a supported endpoint. *)
Lemma Handle_stores s ep v s' :
  Handle s ep v = inr s' →
  ∃ key, (ep = EndString key ∨ ep = EndCallback key)
         ∧ s' = mkState (Me s) (Type_ s) (<[key := v]> (handlers s))
                  (Events s) (action s) (synchronous s).
Proof.
  destruct ep as [key|key|]; simpl; intros H; [| |done].
  - exists key. split; [by left|]. by injection H as <-.
  - exists key. split; [by right|]. by injection H as <-.
Qed.

(** X21. A handler registered with [Handle] under a text is the one
    that a dispatch for that text starts, whatever was registered there
    before. *)
Theorem Handle_then_handle s key h msg m :
  ∃ s', Handle s (EndString key) (Dyn FuncMessageMachine h) = inr s'
        ∧ handle s' key msg m
          = ([started s (CallMessageMachine h msg m)], inr true).
Proof.
  eexists. split; [reflexivity|].
  rewrite (handle_registered _ key msg m h); [done|].
  simpl. apply lookup_insert_eq.
Qed.

(** X22. Registering twice for one endpoint keeps the last handler only:
    the state is the one that the second registration alone gives. *)
Theorem Handle_last_wins s ep v1 v2 s1 s2 :
  Handle s ep v1 = inr s1 → Handle s1 ep v2 = inr s2 →
  Handle s ep v2 = inr s2.
Proof.
  intros H1 H2.
  destruct (Handle_stores s ep v1 s1 H1) as (key & Hep & ->).
  destruct Hep as [-> | ->]; simpl in *; injection H2 as <-;
    by rewrite insert_insert_eq.
Qed.

(** X23. [Handle] changes the entry of its own key and nothing else:
    dispatches for every other key go as before, and the transitions,
    the entry action and the way handlers are started are kept. *)
Theorem Handle_keeps_the_rest s ep v s' key msg m :
  Handle s ep v = inr s' →
  ep ≠ EndString key → ep ≠ EndCallback key →
  handle s' key msg m = handle s key msg m
  ∧ Events s' = Events s ∧ action s' = action s
  ∧ synchronous s' = synchronous s ∧ Me s' = Me s.
Proof.
  intros H Hs Hc.
  destruct (Handle_stores s ep v s' H) as (key' & Hep & ->).
  split; [|done]. unfold handle, runHandler. simpl.
  rewrite lookup_insert_ne; [done|].
  intros ->. destruct Hep as [-> | ->]; done.
Qed.

(** X24. A handler registered with [Handle] for a button, a callback
    endpoint whose [CallbackUnique] is the escape byte followed by
    [unique], is the one started by a callback whose data parses into
    [unique] and a payload, and it sees that payload as the data. *)
Theorem Handle_button_then_callback s unique h upd m c rest payload :
  UpdMessage upd = None → EditedMessage upd = None →
  ChannelPost upd = None → EditedChannelPost upd = None →
  UpdCallback upd = Some c →
  Data c = String formFeed rest →
  cbackRx (Data c) = Some (unique, payload) →
  ∃ s', Handle s (EndCallback (String formFeed unique))
          (Dyn FuncCallbackMachine h) = inr s'
        ∧ processUpdate s' upd m
          = ([started s (CallCallbackMachine h
                           (setData (withInlineMessage c) payload) m)],
             inr true).
Proof.
  intros Hmsg Hed Hch Hech Hcb Hdata Hrx.
  eexists. split; [reflexivity|].
  unfold processUpdate, processOther. rewrite Hmsg, Hed, Hch, Hech, Hcb.
  unfold processCallback. rewrite Hrx, Hdata.
  destruct (decide (formFeed = formFeed)); [|done].
  simpl. rewrite lookup_insert_eq. simpl.
  by rewrite runHandler_started.
Qed.

End RegistrationCoverage.

Section TransitionRegistration.

Implicit Types (s : State) (m : Machine) (e : EventType) (t : StateType).

(** X25. A transition registered with [Event] on the current state is
    the one that [SendEvent] takes for that event, whatever the global
    table says. *)
Theorem Event_then_SendEvent s e t s' m :
  Event s e t = inr s' →
  states m !! current m = Some s' →
  getNextState m e = (t, None) ∧ Current (fst (SendEvent m e)) = t.
Proof.
  intros Hev Hst. unfold Event in Hev.
  destruct (Events s) as [tbl|]; [|done]. simpl in Hev.
  injection Hev as <-.
  assert (Hnext : getNextState m e = (t, None)).
  { apply (getNextState_local m e _ (<[e := t]> tbl) t Hst); [done|].
    apply lookup_insert_eq. }
  split; [done|]. by rewrite (SendEvent_moves m e t Hnext).
Qed.

(** X26. Registering a transition twice for one event keeps the last
    target only, and the transitions of all other events are kept. *)
Theorem Event_last_wins s e t1 t2 s1 s2 :
  Event s e t1 = inr s1 → Event s1 e t2 = inr s2 →
  Event s e t2 = inr s2
  ∧ ∀ e' tbl tbl2, e' ≠ e → Events s = Some tbl → Events s2 = Some tbl2 →
      tbl2 !! e' = tbl !! e'.
Proof.
  unfold Event. intros H1 H2.
  destruct (Events s) as [tbl|]; [|done]. simpl in *.
  injection H1 as <-. simpl in H2. injection H2 as <-. split.
  - by rewrite insert_insert_eq.
  - intros e' tbl0 tbl2 Hne [= <-] [= <-].
    by rewrite !lookup_insert_ne.
Qed.

(** X27. The entry action that [SendEvent] starts is the one last given
    to [Action]; after [Action] with the nil value none is started. *)
Theorem Action_then_SendEvent m e t target previous handler :
  getNextState m e = (t, None) →
  states m !! t = Some (Action (Action target previous) handler) →
  (∀ act, handler = Dyn FuncMachine act →
     SendEvent m e
     = (setCurrent m t,
        ([Lock; Println t; started target (CallMachine act (setCurrent m t));
          Unlock],
         inr None)))
  ∧ (handler = Nil →
     SendEvent m e
     = (setCurrent m t, ([Lock; Println t; Unlock], inr None))).
Proof.
  intros Hnext Htarget. split.
  - intros act ->.
    by rewrite (SendEvent_starts_action m e t _ act Hnext Htarget eq_refl).
  - intros ->. by rewrite (SendEvent_no_action m e t _ Hnext Htarget eq_refl).
Qed.

End TransitionRegistration.

(** ** The further properties on concrete inputs *)

Section CoverageExamples.
Import Examples.

#[local] Existing Instance telebot.

Lemma SendEvent_writes_only_current_witness :
  fst (snd (SendEvent machineNoAction "Activate"))
  = [Lock; Println "Active"; Unlock]
  ∧ ctx (fst (SendEvent machineNoAction "Activate")) = ctx machineNoAction
  ∧ states (fst (SendEvent machineNoAction "Activate"))
    = states machineNoAction.
Proof.
  assert (Htrace : fst (snd (SendEvent machineNoAction "Activate"))
                   = [Lock; Println "Active"; Unlock]) by reflexivity.
  assert (Hinline : ∀ f, Inline f
                         ∉ fst (snd (SendEvent machineNoAction "Activate"))).
  { intros f. rewrite Htrace. intros H.
    repeat (apply elem_of_cons in H as [H|H]; [discriminate H|]).
    by apply not_elem_of_nil in H. }
  assert (Hspawn : ∀ f, Spawn f
                        ∉ fst (snd (SendEvent machineNoAction "Activate"))).
  { intros f. rewrite Htrace. intros H.
    repeat (apply elem_of_cons in H as [H|H]; [discriminate H|]).
    by apply not_elem_of_nil in H. }
  destruct (SendEvent_writes_only_current machineNoAction "Activate"
              Hinline Hspawn) as (_ & Hctx & Hstates & _).
  exact (conj Htrace (conj Hctx Hstates)).
Defined.


Lemma SendEvent_without_entry_action_witness :
  snd (SendEvent machineNoAction "Activate")
  = ([Lock; Println "Active"; Unlock], inr None)
  ∧ Current (fst (SendEvent machineNoAction "Activate")) = "Active".
Proof.
  exact (SendEvent_without_entry_action machineNoAction "Activate" "Active"
           activeNoAction eq_refl eq_refl eq_refl).
Defined.

Lemma SendEvent_action_of_other_type_witness :
  snd (SendEvent machineBadAction "Activate")
  = ([Lock; Println "Active"; Unlock], inl (PanicValue "stb: action is bad"))
  ∧ Current (fst (SendEvent machineBadAction "Activate")) = "Active".
Proof.
  assert (Hty : FuncMessage ≠ FuncMachine) by discriminate.
  exact (SendEvent_action_of_other_type machineBadAction "Activate" "Active"
           activeBadAction FuncMessage 11 eq_refl eq_refl eq_refl Hty).
Defined.


Lemma processUpdate_false_starts_nothing_witness :
  processUpdate silent (messageUpdate (textMessage "hello")) None
  = ([], inr false)
  ∧ ([] : list effect) = [].
Proof.
  split; [reflexivity|].
  exact (processUpdate_false_starts_nothing silent
           (messageUpdate (textMessage "hello")) None [] eq_refl).
Defined.

Lemma processUpdate_panic_starts_nothing_witness :
  processUpdate broken (messageUpdate (textMessage "hello")) None
  = ([], inl (PanicValue
                ("stb: " +:+ OnText +:+ " handler is bad")))
  ∧ ([] : list effect) = [].
Proof.
  split; [reflexivity|].
  exact (processUpdate_panic_starts_nothing broken
           (messageUpdate (textMessage "hello")) None [] _ eq_refl).
Defined.

Lemma processUpdate_command_witness :
  cmdRx (Text (textMessage "/start hello")) = Some ("/start", "", "hello")
  ∧ processUpdate chatty (messageUpdate (textMessage "/start hello")) None
    = ([Spawn (CallMessageMachine 1
                 (setPayload (textMessage "/start hello") "hello") None)],
       inr true).
Proof.
  assert (Hrx : cmdRx (Text (textMessage "/start hello"))
                = Some ("/start", "", "hello")) by reflexivity.
  assert (Hfirst : slash ≠ bell) by discriminate.
  split; [exact Hrx|].
  exact (proj1 (processUpdate_command chatty
                  (messageUpdate (textMessage "/start hello")) None
                  (textMessage "/start hello") slash "start hello"
                  "/start" "" "hello" 1
                  eq_refl eq_refl eq_refl Hfirst Hrx (or_introl eq_refl)
                  eq_refl)).
Defined.

Lemma processUpdate_literal_text_witness :
  processUpdate polite (messageUpdate (textMessage "hello")) None
  = ([Spawn (CallMessageMachine 6 (textMessage "hello") None)], inr true).
Proof.
  assert (Hrx : cmdRx (Text (textMessage "hello")) = None) by reflexivity.
  assert (Hfirst : "h"%char ≠ bell) by discriminate.
  exact (processUpdate_literal_text polite
           (messageUpdate (textMessage "hello")) None (textMessage "hello")
           "h"%char "ello" 6 eq_refl eq_refl eq_refl Hfirst Hrx eq_refl).
Defined.

Lemma processUpdate_generic_text_witness :
  processUpdate polite (messageUpdate (textMessage "good day")) None
  = ([Spawn (CallMessageMachine 4 (textMessage "good day") None)], inr true).
Proof.
  assert (Hrx : cmdRx (Text (textMessage "good day")) = None) by reflexivity.
  assert (Hfirst : "g"%char ≠ bell) by discriminate.
  exact (processUpdate_generic_text polite
           (messageUpdate (textMessage "good day")) None
           (textMessage "good day") "g"%char "ood day"
           eq_refl eq_refl eq_refl Hfirst Hrx eq_refl).
Defined.

Lemma processUpdate_unregistered_command_witness :
  processUpdate chatty (messageUpdate (textMessage "/stop now")) None
  = ([Spawn (CallMessageMachine 3 (textWithPayload "/stop now" "now") None)],
     inr true)
  ∧ Payload (setPayload (textMessage "/stop now") "now") = "now".
Proof.
  assert (Hrx : cmdRx (Text (textMessage "/stop now"))
                = Some ("/stop", "", "now")) by reflexivity.
  assert (Hfirst : slash ≠ bell) by discriminate.
  destruct (processUpdate_unregistered_command chatty
              (messageUpdate (textMessage "/stop now")) None
              (textMessage "/stop now") slash "stop now" "/stop" "" "now"
              eq_refl eq_refl eq_refl Hfirst Hrx (or_introl eq_refl)
              eq_refl eq_refl) as (Hrun & Hpayload & _).
  exact (conj Hrun Hpayload).
Defined.

Lemma processUpdate_pinned_first_witness :
  processUpdate pinning (messageUpdate pinnedStart) None
  = ([Spawn (CallMessageMachine 12 pinnedStart None)], inr true).
Proof.
  exact (processUpdate_pinned_first pinning (messageUpdate pinnedStart) None
           pinnedStart zeroMessage eq_refl eq_refl).
Defined.

Lemma processUpdate_bot_added_witness :
  processUpdate hosting (messageUpdate (joinMessage [alice; bot1])) None
  = ([Spawn (CallMessageMachine 13 (joinMessage [alice; bot1]) None)],
     inr true).
Proof.
  assert (Hmedia : noMedia (joinMessage [alice; bot1])) by repeat split.
  assert (Hin : bot1 ∈ [alice; bot1]).
  { apply elem_of_cons. right. apply elem_of_cons. by left. }
  exact (processUpdate_bot_added hosting
           (messageUpdate (joinMessage [alice; bot1])) None
           (joinMessage [alice; bot1]) [alice; bot1] bot1
           eq_refl eq_refl eq_refl Hmedia eq_refl eq_refl eq_refl Hin
           eq_refl).
Defined.

Lemma processUpdate_no_joined_user_witness :
  processUpdate hosting (messageUpdate (joinMessage [])) None
  = ([], inr false).
Proof.
  assert (Hmedia : noMedia (joinMessage [])) by repeat split.
  assert (Hself : ∀ u, UserJoined (joinMessage []) = Some u →
                       ID u ≠ ID (Me hosting)).
  { intros u Hu. discriminate Hu. }
  exact (processUpdate_no_joined_user hosting (messageUpdate (joinMessage []))
           None (joinMessage []) eq_refl eq_refl eq_refl Hmedia eq_refl
           eq_refl eq_refl eq_refl Hself eq_refl).
Defined.

Lemma processUpdate_plain_callback_witness :
  processUpdate listening (callbackUpdate plain) None
  = ([Spawn (CallCallbackMachine 8 plain None)], inr true).
Proof.
  assert (Hplain : Data plain = EmptyString
                   ∨ (∃ d rest, Data plain = String d rest ∧ d ≠ formFeed)
                   ∨ cbackRx (Data plain) = None).
  { right. left. exists "p"%char, "lain". split; [reflexivity|discriminate]. }
  destruct (processUpdate_plain_callback listening (callbackUpdate plain) None
              plain eq_refl eq_refl eq_refl eq_refl eq_refl Hplain)
    as [Hgeneric _].
  exact (proj1 (Hgeneric 8 eq_refl)).
Defined.

Lemma Handle_last_wins_witness :
  Handle silent (EndString "/hello") (Dyn FuncMessageMachine 2)
  = Handle (stateOf bot1 "Inactive" [("/hello", Dyn FuncMessageMachine 1)]
              [] Nil)
      (EndString "/hello") (Dyn FuncMessageMachine 2).
Proof.
  rewrite (Handle_last_wins silent (EndString "/hello")
             (Dyn FuncMessageMachine 1) (Dyn FuncMessageMachine 2)
             _ _ eq_refl eq_refl).
  reflexivity.
Defined.

Lemma Handle_keeps_the_rest_witness :
  ∃ s', Handle polite (EndString "/hello") (Dyn FuncMessageMachine 2)
        = inr s'
        ∧ handle s' "hello" (textMessage "hello") None
          = handle polite "hello" (textMessage "hello") None.
Proof.
  assert (H1 : EndString "/hello" ≠ EndString "hello") by discriminate.
  assert (H2 : EndString "/hello" ≠ EndCallback "hello") by discriminate.
  eexists. split; [reflexivity|].
  exact (proj1 (Handle_keeps_the_rest polite (EndString "/hello")
                  (Dyn FuncMessageMachine 2) _ "hello"
                  (textMessage "hello") None eq_refl H1 H2)).
Defined.

Lemma Handle_button_then_callback_witness :
  ∃ s', Handle silent (EndCallback (String formFeed "yesBtn"))
          (Dyn FuncCallbackMachine 7) = inr s'
        ∧ processUpdate s' (callbackUpdate yesOk) None
          = ([Spawn (CallCallbackMachine 7 (mkCallback "ok" "" None) None)],
             inr true).
Proof.
  assert (Hrx : cbackRx (Data yesOk) = Some ("yesBtn", "ok")) by reflexivity.
  exact (Handle_button_then_callback silent "yesBtn" 7 (callbackUpdate yesOk)
           None yesOk "yesBtn|ok" "ok"
           eq_refl eq_refl eq_refl eq_refl eq_refl eq_refl Hrx).
Defined.

Lemma Event_then_SendEvent_witness :
  getNextState machineNoAction "Activate" = ("Active", None)
  ∧ Current (fst (SendEvent machineNoAction "Activate")) = "Active".
Proof.
  exact (Event_then_SendEvent (stateOf bot1 "Inactive" [] [] (Dyn FuncMachine 10))
           "Activate" "Active" inactive machineNoAction eq_refl eq_refl).
Defined.

Lemma Event_last_wins_witness :
  Event silent "Activate" "Active"
  = inr (stateOf bot1 "Inactive" [] [("Activate", "Active")] Nil).
Proof.
  rewrite (proj1 (Event_last_wins silent "Activate" "Resting" "Active"
                    _ _ eq_refl eq_refl)).
  reflexivity.
Defined.

Lemma Action_then_SendEvent_witness :
  SendEvent machine "Activate"
  = (setCurrent machine "Active",
     ([Lock; Println "Active";
       Spawn (CallMachine 11 (setCurrent machine "Active")); Unlock],
      inr None)).
Proof.
  assert (Htarget : states machine !! "Active"
                    = Some (Action (Action activeNoAction Nil)
                              (Dyn FuncMachine 11))) by reflexivity.
  exact (proj1 (Action_then_SendEvent machine "Activate" "Active"
                  activeNoAction Nil (Dyn FuncMachine 11) eq_refl Htarget)
           11 eq_refl).
Defined.

End CoverageExamples.
